(** * debug.js: the developer-machine diagnostic report

    A shallow embedding of [src/debug.js].  The script is a straight line of
    observations (subprocesses, one HTTPS GET, one DNS lookup, two filesystem
    reads) followed by comparisons and prints.  Every observation is answered
    by a [World] record; every print, and every observation made, is recorded
    in a trace of [event]s, so that "is printed", "is not executed" and
    "raises" are statements about the trace and the result of a run. *)

From Stdlib Require Import ZArith String Ascii List Bool Lia DecimalString.
Import ListNotations.
Open Scope string_scope.
Open Scope Z_scope.

(** ** The fragment of JavaScript the script relies on *)

Module Js.

(** The numbers the script computes with: integers (a column count, a
    string length, a line count) and [NaN], which arises from arithmetic on
    [undefined] and from [Number] applied to text that is not numeric. *)
Inductive num : Type :=
| NaN
| Int (z : Z).

(** [ToNumber] on [process.stdout.columns]: [undefined] becomes [NaN]. *)
Definition of_option (o : option Z) : num :=
  match o with
  | None => NaN
  | Some z => Int z
  end.

(** [a - b]. *)
Definition sub (a b : num) : num :=
  match a, b with
  | Int x, Int y => Int (x - y)
  | _, _ => NaN
  end.

(** [a > b] and [a >= b]: any comparison with [NaN] is false. *)
Definition gt (a b : num) : bool :=
  match a, b with
  | Int x, Int y => x >? y
  | _, _ => false
  end.

Definition ge (a b : num) : bool :=
  match a, b with
  | Int x, Int y => x >=? y
  | _, _ => false
  end.

(** [ToIntegerOrInfinity]: [NaN] becomes 0. *)
Definition to_integer (n : num) : Z :=
  match n with
  | NaN => 0
  | Int z => z
  end.

(** Strings are [string]s with one character per UTF-16 code unit (exact
    for code units below 256, which covers every string the script builds
    or measures).  White space and line terminators in that range: TAB, LF,
    VT, FF, CR, SPACE and NBSP. *)
Definition is_white (c : ascii) : bool :=
  let n := nat_of_ascii c in
  (Nat.eqb n 9 || Nat.eqb n 10 || Nat.eqb n 11 || Nat.eqb n 12
   || Nat.eqb n 13 || Nat.eqb n 32 || Nat.eqb n 160)%bool.

Fixpoint trimStart (s : string) : string :=
  match s with
  | String c s' => if is_white c then trimStart s' else s
  | EmptyString => EmptyString
  end.

Fixpoint trimEnd (s : string) : string :=
  match s with
  | String c s' =>
      match trimEnd s' with
      | EmptyString => if is_white c then EmptyString else String c EmptyString
      | r => String c r
      end
  | EmptyString => EmptyString
  end.

(** [String.prototype.trim]. *)
Definition trim (s : string) : string := trimEnd (trimStart s).

Fixpoint all_white (s : string) : bool :=
  match s with
  | String c s' => is_white c && all_white s'
  | EmptyString => true
  end.

Definition first_char (s : string) : option ascii :=
  match s with
  | String c _ => Some c
  | EmptyString => None
  end.

Fixpoint last_char (s : string) : option ascii :=
  match s with
  | String c EmptyString => Some c
  | String _ s' => last_char s'
  | EmptyString => None
  end.

(** A string has no leading (trailing) white space when its first (last)
    character, if there is one, is not white. *)
Definition clean_edge (o : option ascii) : bool :=
  match o with
  | Some c => negb (is_white c)
  | None => true
  end.

Fixpoint copies (s : string) (n : nat) : string :=
  match n with
  | O => EmptyString
  | S n' => s ++ copies s n'
  end.

(** [String.prototype.slice(start)] for a non-negative [start]. *)
Fixpoint slice (start : nat) (s : string) : string :=
  match start, s with
  | S n, String _ s' => slice n s'
  | _, _ => s
  end.

Fixpoint starts_with (p s : string) : bool :=
  match p, s with
  | EmptyString, _ => true
  | String a p', String b s' => Ascii.eqb a b && starts_with p' s'
  | String _ _, EmptyString => false
  end.

(** [String.prototype.includes]. *)
Fixpoint includes (s p : string) : bool :=
  starts_with p s ||
  match s with
  | String _ s' => includes s' p
  | EmptyString => false
  end.

Definition is_digit (c : ascii) : bool :=
  let n := nat_of_ascii c in (Nat.leb 48 n && Nat.leb n 57)%bool.

Fixpoint digits (acc : Z) (s : string) : num :=
  match s with
  | String c s' =>
      if is_digit c
      then digits (10 * acc + Z.of_nat (nat_of_ascii c - 48)) s'
      else NaN
  | EmptyString => Int acc
  end.

(** [Number(text)] on the texts a line count can be: surrounding white
    space is ignored, the empty text is 0, a run of decimal digits is its
    value.  Signs, fractions, exponents and radix prefixes never come out
    of [wc -l] and are outside this model, which reads them as [NaN]: the
    model is exact on a text that, once trimmed, is empty, is a run of
    digits of value below 2^53, or has a character that no numeric literal
    has.  From 2^53 on the source rounds to a double where the model keeps
    every digit, which changes neither that the result is a number nor how
    it compares with 10. *)
Definition Number (s : string) : num := digits 0 (trim s).

End Js.

Definition LF : string := String (ascii_of_nat 10) EmptyString.

(** ** Console text, events and failures *)

(** [chalk] wraps a string in escape sequences that occupy no column, so a
    piece of console text is kept as the string together with the style it
    was given; [visible] is what the terminal shows. *)
Inductive style : Type := dim | green | red | yellow.

Definition text : Type := list (option style * string).

Definition plain (s : string) : text := [(None, s)].

(** [chalk.<style>(s)]: the empty string is handed back as it is. *)
Definition chalk (st : style) (s : string) : text :=
  if (s =? "")%string then plain s else [(Some st, s)].

Fixpoint visible (t : text) : string :=
  match t with
  | [] => EmptyString
  | (_, s) :: t' => s ++ visible t'
  end.

(** What the script hands to the console. *)
Inductive value : Type :=
| VUndefined
| VBool (b : bool)
| VNum (n : Js.num)
| VStr (t : text).

Definition str (s : string) : value := VStr (plain s).

Definition of_env (o : option string) : value :=
  match o with
  | Some s => str s
  | None => VUndefined
  end.

Inductive method : Type := Log | Error | Warn.

(** One entry per console call and per observation of the machine. *)
Inductive event : Type :=
| Console (m : method) (args : list value)
| Spawn (command : string)
| HttpGet (url : string) (rejectUnauthorized : bool)
| DnsResolve (hostname : string)
| Stat (path : string)
| Readdir (path : string).

Inductive exn : Type :=
| RangeError
| ChildProcessError (command : string)
| RequestError (url : string)
| ResolveError (hostname : string)
| FsError (path : string).

(** How a subprocess run by [cp.execSync] ended; [stdout] is its standard
    output decoded to text. *)
Inductive proc : Type :=
| Exited (status : Z) (stdout : string)
| Signalled
| NotSpawned.

(** The machine the report is run on. *)
Record World : Type := {
  columns : option Z;                 (* process.stdout.columns *)
  env : string -> option string;      (* process.env *)
  platform : string;                  (* os.platform() *)
  cpus : nat;                         (* os.cpus().length *)
  sh : string -> proc;                (* a command run in a subshell *)
  request : string -> bool -> bool;   (* does the GET resolve? *)
  lookup : string -> bool;            (* does the name resolve? *)
  birthtime : string -> option Z;     (* fs.stat: creation time, ms *)
  entries : string -> option nat;     (* fs.readdir: number of entries *)
  clock : Z;                          (* current time, ms *)
  utcOffset : Z -> Z;                 (* local offset at an instant, minutes *)
  fromNow : Z -> string               (* moment's relative time for an instant *)
}.

(** ** Computations: a trace and a result *)

Inductive res (A : Type) : Type :=
| Ok (a : A)
| Throw (e : exn).
Arguments Ok {A} a.
Arguments Throw {A} e.

Definition M (A : Type) : Type := (list event * res A)%type.

Definition ret {A} (a : A) : M A := ([], Ok a).

Definition throw {A} (e : exn) : M A := ([], Throw e).

Definition emit (e : event) : M unit := ([e], Ok tt).

Definition bind {A B} (c : M A) (k : A -> M B) : M B :=
  match c with
  | (t, Ok a) => let (t', r) := k a in ((t ++ t')%list, r)
  | (t, Throw e) => (t, Throw e)
  end.

(** [try { c } catch { h }]. *)
Definition try_catch {A} (c : M A) (h : M A) : M A :=
  match c with
  | (t, Ok a) => (t, Ok a)
  | (t, Throw _) => let (t', r) := h in ((t ++ t')%list, r)
  end.

Notation "x <- c ;; k" := (bind c (fun x => k))
  (at level 61, c at next level, right associativity).
Notation "c ;; k" := (bind c (fun _ => k))
  (at level 61, right associativity).

Definition when (b : bool) (c : M unit) : M unit := if b then c else ret tt.

Definition trace {A} (c : M A) : list event := fst c.
Definition result {A} (c : M A) : res A := snd c.

Definition is_console (m : method) (e : event) : bool :=
  match e, m with
  | Console Log _, Log | Console Error _, Error | Console Warn _, Warn => true
  | _, _ => false
  end.

Definition printed (e : event) : bool :=
  match e with
  | Console _ _ => true
  | _ => false
  end.

(** The calls made to one console method, in order. *)
Definition lines (m : method) (t : list event) : list event :=
  filter (is_console m) t.

(** ** moment *)

Record moment : Type := { valueOf : Z; offset : Z }.

Definition DAY : Z := 86400000.

(** [this.diff(that, 'days')]: the difference in milliseconds, corrected by
    the change of local offset between the two instants, divided by a day
    and truncated towards zero. *)
Definition diff_days (this that : moment) : Z :=
  let zoneDelta := (offset that - offset this) * 60000 in
  Z.quot (valueOf this - valueOf that - zoneDelta) DAY.

(** [String(n)] inside a template literal. *)
Definition show (n : Js.num) : string :=
  match n with
  | Js.NaN => "NaN"
  | Js.Int z => DecimalString.NilEmpty.string_of_int (Z.to_int z)
  end.

(** The arrow that starts every [error] and [warn] line (U+2192, kept as its
    three UTF-8 bytes; no length is taken of a string that contains it). *)
Definition arrow : string :=
  String (ascii_of_nat 226) (String (ascii_of_nat 134)
    (String (ascii_of_nat 146) " ")).

(** ** The script *)

Section Script.

(** [semver.satisfies(version, range)], from the semver package. *)
Variable satisfies : string -> string -> bool.

Variable w : World.

Definition console (m : method) (args : list value) : M unit :=
  emit (Console m args).

Definition log : list value -> M unit := console Log.

(** [String.prototype.repeat]: a negative count is a [RangeError]. *)
Definition repeat (s : string) (count : Js.num) : M string :=
  let n := Js.to_integer count in
  if n <? 0 then throw RangeError else ret (Js.copies s (Z.to_nat n)).

(** [cp.execSync]: the standard output, or a throw when the process could
    not be spawned, was killed, or exited with a status other than 0. *)
Definition execSync (command : string) : M string :=
  emit (Spawn command) ;;
  match sh w command with
  | Exited 0 stdout => ret stdout
  | _ => throw (ChildProcessError command)
  end.

Definition exec (command : string) : M string :=
  stdout <- execSync command ;;
  ret (Js.trim stdout).

Definition section_ (name : string) (callback : M unit) : M unit :=
  let WIDTH := Js.of_option (columns w) in
  let start := chalk dim "* " in
  let end_ := chalk dim " *" in
  bar <- repeat "=" WIDTH ;;
  let line := chalk dim bar in
  log [VStr line] ;;
  pad <- repeat " "
    (Js.sub (Js.sub WIDTH (Js.Int (Z.of_nat (String.length name))))
            (Js.Int 4)) ;;
  log [VStr (start ++ chalk green name ++ plain pad ++ end_)%list] ;;
  log [VStr line] ;;
  callback ;;
  log [str ""].

Definition error (message : string) : M unit :=
  console Error [VStr (chalk red (arrow ++ message))].

Definition warn (message : string) : M unit :=
  console Warn [VStr (chalk yellow (arrow ++ message))].

(** [axios.get(url, { httpsAgent })]: rejects when the request fails. *)
Definition axios_get (url : string) (rejectUnauthorized : bool) : M unit :=
  emit (HttpGet url rejectUnauthorized) ;;
  if request w url rejectUnauthorized then ret tt
  else throw (RequestError url).

Definition ping (url : string) : M bool :=
  try_catch (axios_get url false ;; ret true) (ret false).

(** [promisify(dns.resolve)]. *)
Definition dns_resolve (hostname : string) : M unit :=
  emit (DnsResolve hostname) ;;
  if lookup w hostname then ret tt else throw (ResolveError hostname).

Definition hasInternetAccess : M bool :=
  try_catch (dns_resolve "www.google.com" ;; ret true) (ret false).

Definition isDockerRunning : M bool :=
  try_catch (execSync "docker version" ;; ret true) (ret false).

(** [promisify(fs.stat)(path)], of which only [birthtime] is read. *)
Definition stat (path : string) : M Z :=
  emit (Stat path) ;;
  match birthtime w path with
  | Some t => ret t
  | None => throw (FsError path)
  end.

(** [promisify(fs.readdir)(path)], of which only [length] is read. *)
Definition readdir (path : string) : M nat :=
  emit (Readdir path) ;;
  match entries w path with
  | Some n => ret n
  | None => throw (FsError path)
  end.

(** [moment(date)] and [moment()]. *)
Definition moment_at (t : Z) : moment :=
  {| valueOf := t; offset := utcOffset w t |}.

Definition system_body : M unit :=
  onVPN <- ping "https://metadata.int.thomsonreuters.com" ;;
  log [str "Username:"; of_env (env w "USERNAME")] ;;
  log [str "Distribution:"; str (platform w)] ;;
  log [str "CPUs:"; VNum (Js.Int (Z.of_nat (cpus w)))] ;;
  internet <- hasInternetAccess ;;
  log [str "Internet:"; VBool internet] ;;
  log [str "VPN:"; VBool onVPN] ;;
  docker <- isDockerRunning ;;
  log [str "Docker running:"; VBool docker].

Definition expected : string := "v12.18.3".

(** [exec('echo $NVM_DIR') !== '']. *)
Definition hasNvm : M bool :=
  dir <- exec "echo $NVM_DIR" ;;
  ret (negb (dir =? "")%string).

(** [moment().diff(lastInstall, 'days') >= 7]. *)
Definition oldInstall (lastInstall : moment) : bool :=
  Js.ge (Js.Int (diff_days (moment_at (clock w)) lastInstall)) (Js.Int 7).

Definition node_body : M unit :=
  nodeVersion <- exec "node -v" ;;
  nvm <- hasNvm ;;
  born <- stat "./node_modules/moment" ;;
  let lastInstall := moment_at born in
  let old := oldInstall lastInstall in
  log [str "Version:"; str nodeVersion] ;;
  when (negb (satisfies nodeVersion expected))
    (error ("Installed Node version (" ++ nodeVersion
            ++ ") does not satisfy expectations (" ++ expected
            ++ "); please update.") ;;
     error ("nvm install " ++ Js.slice 2 expected)) ;;
  npm <- exec "npm -v" ;;
  log [str "npm:"; str npm] ;;
  log [str "nvm:"; VBool nvm] ;;
  when (negb nvm)
    (error "Node version manager missing; please install nvm." ;;
     error "https://github.com/nvm-sh/nvm") ;;
  log [str "Env:"; of_env (env w "NODE_ENV")] ;;
  modules <- readdir "./node_modules" ;;
  log [str "Modules:"; VNum (Js.Int (Z.of_nat modules))] ;;
  log [str "Installed:"; str (fromNow w (valueOf lastInstall))] ;;
  when old
    (warn "The last node_modules install is over a week old." ;;
     warn "Consider reinstalling dependencies: `npm ci`.").

Definition mainBranch : string := "develop".
Definition threshold : Js.num := Js.Int 10.

Definition git_body : M unit :=
  branch <- exec "git branch --show-current" ;;
  count <- exec ("git log --oneline " ++ branch ++ " ^" ++ mainBranch
                 ++ " | wc -l") ;;
  let difference := Js.Number count in
  log [str "Branch:"; str branch] ;;
  log [str "Difference:"; VNum difference] ;;
  when (Js.gt difference threshold)
    (console Warn
       [str ("The local branch (" ++ branch ++ ") is over " ++ show threshold
             ++ " commits apart (" ++ show difference ++ ") from "
             ++ mainBranch ++ "; consider rebasing.")]) ;;
  message <- exec "git log -1 --pretty=%B" ;;
  log [str "Last commit:"; str (Js.trim message)] ;;
  status <- exec "git status --porcelain" ;;
  log [str "Clean:"; VBool (status =? "")%string].

Definition main : M unit :=
  section_ "System" system_body ;;
  section_ "Node" node_body ;;
  section_ "Git" git_body.

End Script.

(** ** Vocabulary of the statements *)

(** [t] is [s] with its leading and trailing white space stripped. *)
Definition stripped (s t : string) : Prop :=
  (exists l r, s = l ++ t ++ r
               /\ Js.all_white l = true /\ Js.all_white r = true)
  /\ Js.clean_edge (Js.first_char t) = true
  /\ Js.clean_edge (Js.last_char t) = true.

(** Whether a computation came to its end without throwing. *)
Definition succeeds {A} (c : M A) : bool :=
  match result c with
  | Ok _ => true
  | Throw _ => false
  end.

(** The lines the report can add to its plain output. *)
Definition mismatch_errors (nodeVersion : string) : list event :=
  [ Console Error
      [VStr [(Some red,
              arrow ++ "Installed Node version (" ++ nodeVersion
              ++ ") does not satisfy expectations (v12.18.3); please update.")]];
    Console Error [VStr [(Some red, arrow ++ "nvm install 2.18.3")]] ].

Definition nvm_errors : list event :=
  [ Console Error
      [VStr [(Some red,
              arrow ++ "Node version manager missing; please install nvm.")]];
    Console Error [VStr [(Some red, arrow ++ "https://github.com/nvm-sh/nvm")]] ].

Definition stale_warnings : list event :=
  [ Console Warn
      [VStr [(Some yellow,
              arrow ++ "The last node_modules install is over a week old.")]];
    Console Warn
      [VStr [(Some yellow,
              arrow ++ "Consider reinstalling dependencies: `npm ci`.")]] ].

Definition rebase_warning (branch : string) (difference : Js.num) : event :=
  Console Warn
    [str ("The local branch (" ++ branch ++ ") is over 10 commits apart ("
          ++ show difference ++ ") from develop; consider rebasing.")].

(** The two kinds of line a section banner is made of, at width [W]. *)
Definition divider (W : Z) : text :=
  chalk dim (Js.copies "=" (Z.to_nat W)).

Definition banner (W : Z) (name : string) : text :=
  (chalk dim "* " ++ chalk green name
   ++ plain (Js.copies " " (Z.to_nat (W - Z.of_nat (String.length name) - 4)))
   ++ chalk dim " *")%list.

(** The trace of the Node section body when none of its observations fails:
    [version], [dir] and [npm] are the trimmed outputs of the three commands,
    [born] the creation time of the dependency directory, [modules] the
    number of entries of [./node_modules]. *)
Definition node_trace (satisfies : string -> string -> bool) (w : World)
    (version dir npm : string) (born : Z) (modules : nat) : list event :=
  ([ Spawn "node -v"; Spawn "echo $NVM_DIR"; Stat "./node_modules/moment";
     Console Log [str "Version:"; str version] ]
   ++ (if satisfies version "v12.18.3" then [] else mismatch_errors version)
   ++ [ Spawn "npm -v";
        Console Log [str "npm:"; str npm];
        Console Log [str "nvm:"; VBool (negb (dir =? "")%string)] ]
   ++ (if (dir =? "")%string then nvm_errors else [])
   ++ [ Console Log [str "Env:"; of_env (env w "NODE_ENV")];
        Readdir "./node_modules";
        Console Log [str "Modules:"; VNum (Js.Int (Z.of_nat modules))];
        Console Log [str "Installed:"; str (fromNow w born)] ]
   ++ (if diff_days (moment_at w (clock w)) (moment_at w born) >=? 7
       then stale_warnings else []))%list.

(** ** Example machines *)

Fixpoint answer (table : list (string * proc)) (command : string) : proc :=
  match table with
  | [] => NotSpawned
  | (c, p) :: table' =>
      if (c =? command)%string then p else answer table' command
  end.

Definition machine (width : option Z) (table : list (string * proc))
    (born : option Z) (now : Z) : World :=
  {| columns := width;
     env := fun _ => None;
     platform := "linux";
     cpus := 8;
     sh := answer table;
     request := fun _ _ => false;
     lookup := fun _ => true;
     birthtime := fun _ => born;
     entries := fun _ => Some 412%nat;
     clock := now;
     utcOffset := fun _ => 0;
     fromNow := fun _ => "a while ago" |}.

Definition healthy : list (string * proc) :=
  [ ("node -v", Exited 0 ("v12.18.3" ++ LF));
    ("echo $NVM_DIR", Exited 0 ("/home/dev/.nvm" ++ LF));
    ("npm -v", Exited 0 ("6.14.6" ++ LF));
    ("docker version", Exited 1 "");
    ("git branch --show-current", Exited 0 ("  feature" ++ LF));
    ("git log --oneline feature ^develop | wc -l", Exited 0 ("      11" ++ LF));
    ("git log -1 --pretty=%B", Exited 0 ("Fix typo" ++ LF ++ LF));
    ("git status --porcelain", Exited 0 "") ].

(** Stands in for [semver.satisfies] when the script is run on an example
    machine: against the one plain version the script passes as a range, a
    version string satisfies it when it is that version. *)
Definition same_version (version range : string) : bool :=
  (version =? range)%string.

(** A terminal 20 columns wide, one 8 columns wide, and output that is not a
    terminal. *)
Definition roomy : World := machine (Some 20) healthy (Some 0) 0.
Definition narrow : World := machine (Some 8) healthy (Some 0) 0.
Definition piped : World := machine None healthy (Some 0) 0.

(** Machines that differ from the healthy one in a single observation:
    dependencies installed seven and six days ago, a newer Node, no
    dependency directory, no NVM_DIR, and a branch ten commits ahead. *)
Definition week_old : World :=
  machine (Some 80) healthy (Some (3 * DAY)) (10 * DAY).
Definition six_days : World :=
  machine (Some 80) healthy (Some (3 * DAY)) (9 * DAY).
Definition newer_node : World :=
  machine (Some 80) (("node -v", Exited 0 ("v14.0.0" ++ LF)) :: healthy)
    (Some 0) DAY.
Definition fresh_clone : World := machine (Some 80) healthy None DAY.
Definition ten_ahead : World :=
  machine (Some 80)
    (("git log --oneline feature ^develop | wc -l", Exited 0 ("10" ++ LF))
     :: healthy) (Some 0) DAY.

(** ** The rest of the file *)

(** [a || b] on values that are a string or [undefined]: the empty string
    and [undefined] are falsy. *)
Definition truthy (o : option string) : bool :=
  match o with
  | Some s => negb (s =? "")%string
  | None => false
  end.

Definition or_else (a b : option string) : option string :=
  if truthy a then a else b.

(** [process.env.HOME || process.env.HOMEPATH || process.env.USERPROFILE]. *)
Definition HOME_DIR (w : World) : option string :=
  or_else (or_else (env w "HOME") (env w "HOMEPATH")) (env w "USERPROFILE").

Module Plist.

(** What [xml2js] hands back for a property list, as far as
    [getMacOsVersion] looks into it: the root may or may not be a [plist],
    which may or may not have [dict] children, each of which may or may not
    have [string] children. *)
Record dict_node : Type := { strings : option (list string) }.
Record plist_node : Type := { dict : option (list dict_node) }.
Record document : Type := { plist : option plist_node }.

Inductive failure : Type :=
| ReadFailed (path : string)
| ParseFailed
| TypeError.

(** [Array.prototype.slice(start, end)] for [0 <= start <= end]. *)
Definition slice {A} (start end_ : nat) (l : list A) : list A :=
  firstn (end_ - start) (skipn start l).

(** [Array.prototype.join(separator)] on an array of strings. *)
Fixpoint join (separator : string) (l : list string) : string :=
  match l with
  | [] => EmptyString
  | [x] => x
  | x :: l' => x ++ separator ++ join separator l'
  end.

Section Reader.

(** [fs.readFileSync(path, 'utf8')] and [xml2js.parseStringPromise]. *)
Variable readFileSync : string -> option string.
Variable parseStringPromise : string -> option document.

Definition getMacOsVersion : failure + string :=
  let path := "/System/Library/CoreServices/SystemVersion.plist" in
  match readFileSync path with
  | None => inl (ReadFailed path)
  | Some content =>
      match parseStringPromise content with
      | None => inl ParseFailed
      | Some doc =>
          match plist doc with
          | None => inl TypeError
          | Some p =>
              match dict p with
              | Some (d :: _) =>
                  match strings d with
                  | Some l => inr (join " " (slice 2 4 l))
                  | None => inl TypeError
                  end
              | _ => inl TypeError
              end
          end
      end
  end.

End Reader.

End Plist.

(** Whether a title leaves room for its banner on the terminal. *)
Definition fits (w : World) (name : string) : bool :=
  match columns w with
  | Some W => Z.of_nat (String.length name) + 4 <=? W
  | None => true
  end.

Fixpoint all_digits (s : string) : bool :=
  match s with
  | String c s' => Js.is_digit c && all_digits s'
  | EmptyString => true
  end.

(** The trace of the System section body. *)
Definition system_trace (w : World) : list event :=
  [ HttpGet "https://metadata.int.thomsonreuters.com" false;
    Console Log [str "Username:"; of_env (env w "USERNAME")];
    Console Log [str "Distribution:"; str (platform w)];
    Console Log [str "CPUs:"; VNum (Js.Int (Z.of_nat (cpus w)))];
    DnsResolve "www.google.com";
    Console Log [str "Internet:"; VBool (lookup w "www.google.com")];
    Console Log
      [str "VPN:";
       VBool (request w "https://metadata.int.thomsonreuters.com" false)];
    Spawn "docker version";
    Console Log
      [str "Docker running:";
       VBool match sh w "docker version" with
             | Exited 0 _ => true
             | _ => false
             end] ].

(** The command that counts the commits of [branch] that are not on
    develop. *)
Definition count_command (branch : string) : string :=
  "git log --oneline " ++ branch ++ " ^develop | wc -l".

(** The observations the report is written to make: the one GET, without
    certificate validation; the one name; its own files; and any command. *)
Definition expected_observation (e : event) : bool :=
  match e with
  | Console _ _ => true
  | Spawn _ => true
  | HttpGet url rejectUnauthorized =>
      (url =? "https://metadata.int.thomsonreuters.com")%string
      && negb rejectUnauthorized
  | DnsResolve hostname => (hostname =? "www.google.com")%string
  | Stat path => (path =? "./node_modules/moment")%string
  | Readdir path => (path =? "./node_modules")%string
  end.

(** The commands a trace has run, in order. *)
Fixpoint spawned (t : list event) : list string :=
  match t with
  | Spawn c :: t' => c :: spawned t'
  | _ :: t' => spawned t'
  | [] => []
  end.

(** A machine without git. *)
Definition no_git : World :=
  machine (Some 80)
    (("git branch --show-current", NotSpawned) :: healthy) (Some 0) DAY.

(** A machine whose count command prints text that is not a number. *)
Definition odd_count : World :=
  machine (Some 80)
    (("git log --oneline feature ^develop | wc -l",
      Exited 0 ("many" ++ LF)) :: healthy) (Some 0) DAY.

(** The commands of the System and Node sections. *)
Definition before_git (e : event) : bool :=
  match e with
  | Spawn c =>
      (c =? "docker version")%string || (c =? "node -v")%string
      || (c =? "echo $NVM_DIR")%string || (c =? "npm -v")%string
  | _ => true
  end.

(** The commands of the Git section on a machine: three fixed ones, and the
    count command built from the trimmed output of the branch query. *)
Definition git_command (w : World) (c : string) : bool :=
  (c =? "git branch --show-current")%string
  || (c =? "git log -1 --pretty=%B")%string
  || (c =? "git status --porcelain")%string
  || match sh w "git branch --show-current" with
     | Exited 0 b => (c =? count_command (Js.trim b))%string
     | _ => false
     end.

Definition report_command (w : World) (e : event) : bool :=
  match e with
  | Spawn c => before_git e || git_command w c
  | _ => true
  end.

(** The descriptor of a macOS 10.15.6 system, read and parsed. *)
Definition catalina : Plist.document :=
  {| Plist.plist :=
       Some {| Plist.dict :=
                 Some [ {| Plist.strings :=
                             Some [ "19G73"; "1983-2020 Apple Inc.";
                                    "Mac OS X"; "10.15.6"; "10.15.6" ] |} ] |}
  |}.

(** A machine without npm whose dependencies were installed thirty days
    ago. *)
Definition npm_missing : World :=
  machine (Some 80) (("npm -v", NotSpawned) :: healthy) (Some DAY) (31 * DAY).

(** A machine whose clock went forward by one hour between the install and
    the report (UTC+1 before the fifth day, UTC+2 after), the report being
    run one hour short of seven times 86400000 ms after the install. *)
Definition spring_forward : World :=
  {| columns := Some 80;
     env := fun _ => None;
     platform := "linux";
     cpus := 8;
     sh := answer healthy;
     request := fun _ _ => false;
     lookup := fun _ => true;
     birthtime := fun _ => Some (3 * DAY);
     entries := fun _ => Some 412%nat;
     clock := 10 * DAY - 3600000;
     utcOffset := fun t => if t <? 5 * DAY then 60 else 120;
     fromNow := fun _ => "7 days ago" |}.

(** The characters a numeric literal can be made of: digits, signs, the dot,
    the hexadecimal digits, the letters of the exponent and radix marks, and
    those of [Infinity]. *)
Definition numeric_char (c : ascii) : bool :=
  Js.is_digit c
  || existsb (Ascii.eqb c)
       (list_ascii_of_string "+-.abcdefABCDEFxXoOInity").

(** Whether a text has a character that no numeric literal has. *)
Fixpoint foreign (s : string) : bool :=
  match s with
  | String c s' => negb (numeric_char c) || foreign s'
  | EmptyString => false
  end.

(** * Properties *)

(** ** Strings *)

Lemma length_append (s t : string) :
  String.length (s ++ t) = (String.length s + String.length t)%nat.
Proof.
  induction s as [|c s IH]; simpl; [reflexivity | now rewrite IH].
Qed.

Lemma length_copies_char (c : ascii) (n : nat) :
  String.length (Js.copies (String c EmptyString) n) = n.
Proof.
  induction n as [|n IH]; simpl; [reflexivity | now rewrite IH].
Qed.

Lemma trimStart_split (s : string) :
  exists l, s = l ++ Js.trimStart s /\ Js.all_white l = true.
Proof.
  induction s as [|c s [l [Hs Hl]]]; simpl.
  - now exists EmptyString.
  - destruct (Js.is_white c) eqn:Hc.
    + exists (String c l); simpl. rewrite Hc, Hl. split; [now f_equal | reflexivity].
    + now exists EmptyString.
Qed.

Lemma trimStart_clean (s : string) :
  Js.clean_edge (Js.first_char (Js.trimStart s)) = true.
Proof.
  induction s as [|c s IH]; simpl; [reflexivity|].
  destruct (Js.is_white c) eqn:Hc; [exact IH | simpl; now rewrite Hc].
Qed.

Lemma trimEnd_split (s : string) :
  exists r, s = Js.trimEnd s ++ r /\ Js.all_white r = true.
Proof.
  induction s as [|c s [r [Hs Hr]]]; simpl.
  - now exists EmptyString.
  - destruct (Js.trimEnd s) as [|d t] eqn:Ht.
    + simpl in Hs; subst r.
      destruct (Js.is_white c) eqn:Hc.
      * exists (String c s); simpl. now rewrite Hc, Hr.
      * now exists s.
    + exists r; simpl. split; [now rewrite Hs at 1 | exact Hr].
Qed.

Lemma trimEnd_clean (s : string) :
  Js.clean_edge (Js.last_char (Js.trimEnd s)) = true.
Proof.
  induction s as [|c s IH]; simpl; [reflexivity|].
  destruct (Js.trimEnd s) as [|d t] eqn:Ht.
  - destruct (Js.is_white c) eqn:Hc; simpl; [reflexivity | now rewrite Hc].
  - exact IH.
Qed.

Lemma trimEnd_first (s : string) :
  Js.clean_edge (Js.first_char s) = true ->
  Js.first_char (Js.trimEnd s) = Js.first_char s.
Proof.
  destruct s as [|c s]; simpl; [reflexivity|].
  intros Hc. destruct (Js.trimEnd s); [|reflexivity].
  destruct (Js.is_white c); [discriminate | reflexivity].
Qed.

Lemma trim_stripped (s : string) : stripped s (Js.trim s).
Proof.
  unfold stripped, Js.trim.
  destruct (trimStart_split s) as [l [Hs Hl]].
  destruct (trimEnd_split (Js.trimStart s)) as [r [Ht Hr]].
  repeat split.
  - exists l, r. repeat split; try assumption.
    now rewrite <- Ht.
  - rewrite trimEnd_first; apply trimStart_clean.
  - apply trimEnd_clean.
Qed.

(** ** Running a command *)

Lemma exec_ok (w : World) (command stdout : string) :
  sh w command = Exited 0 stdout ->
  exec w command = ([Spawn command], Ok (Js.trim stdout)).
Proof.
  intros H. unfold exec, execSync. now rewrite H.
Qed.

Lemma exec_cases (w : World) (command : string) :
  (exists stdout, sh w command = Exited 0 stdout
                  /\ exec w command = ([Spawn command], Ok (Js.trim stdout)))
  \/ exec w command = ([Spawn command], Throw (ChildProcessError command)).
Proof.
  unfold exec, execSync.
  destruct (sh w command) as [[|p|p] out| |]; simpl; eauto.
Qed.

(** C5. [exec] returns the standard output of a command that succeeded with
    its leading and trailing white space stripped, and throws when the
    process exits with a status other than 0, is killed, or cannot be
    spawned; a command that prints ["  develop\n"] yields ["develop"]. *)
Theorem exec_returns_trimmed_stdout (w : World) (command : string) :
  match sh w command with
  | Exited 0 stdout =>
      result (exec w command) = Ok (Js.trim stdout)
      /\ stripped stdout (Js.trim stdout)
  | _ => result (exec w command) = Throw (ChildProcessError command)
  end
  /\ Js.trim ("  develop" ++ LF) = "develop".
Proof.
  split; [|reflexivity].
  unfold exec, execSync.
  destruct (sh w command) as [[|p|p] out| |]; simpl; try reflexivity.
  split; [reflexivity | apply trim_stripped].
Qed.

(** ** The trapped checks *)

(** C1. [ping], [hasInternetAccess] and [isDockerRunning] never throw and
    print nothing; each returns [true] exactly when the operation it wraps
    (the HTTPS GET, the DNS resolution of www.google.com, the
    [docker version] subprocess) succeeds, and [false] when it throws. *)
Theorem trapped_checks_collapse_to_boolean (w : World) (url : string) :
  (result (ping w url) = Ok (succeeds (axios_get w url false))
   /\ succeeds (axios_get w url false) = request w url false
   /\ filter printed (trace (ping w url)) = [])
  /\ (result (hasInternetAccess w)
        = Ok (succeeds (dns_resolve w "www.google.com"))
      /\ succeeds (dns_resolve w "www.google.com") = lookup w "www.google.com"
      /\ filter printed (trace (hasInternetAccess w)) = [])
  /\ (result (isDockerRunning w) = Ok (succeeds (execSync w "docker version"))
      /\ succeeds (execSync w "docker version")
           = match sh w "docker version" with
             | Exited 0 _ => true
             | _ => false
             end
      /\ filter printed (trace (isDockerRunning w)) = []).
Proof.
  unfold ping, hasInternetAccess, isDockerRunning, succeeds,
    axios_get, dns_resolve, execSync.
  repeat split.
  - destruct (request w url false); reflexivity.
  - destruct (request w url false); reflexivity.
  - destruct (request w url false); reflexivity.
  - destruct (lookup w "www.google.com"); reflexivity.
  - destruct (lookup w "www.google.com"); reflexivity.
  - destruct (lookup w "www.google.com"); reflexivity.
  - destruct (sh w "docker version") as [[|p|p] out| |]; reflexivity.
  - destruct (sh w "docker version") as [[|p|p] out| |]; reflexivity.
  - destruct (sh w "docker version") as [[|p|p] out| |]; reflexivity.
Qed.

(** ** The section banner *)

Lemma append_empty (s : string) : s ++ "" = s.
Proof.
  induction s as [|c s IH]; simpl; [reflexivity | now rewrite IH].
Qed.

Lemma visible_chalk (st : style) (s : string) : visible (chalk st s) = s.
Proof.
  unfold chalk. destruct (s =? "")%string; simpl; apply append_empty.
Qed.

Lemma visible_app (t u : text) :
  visible (t ++ u)%list = visible t ++ visible u.
Proof.
  induction t as [|[st s] t IH]; simpl; [reflexivity|].
  rewrite IH. clear IH.
  induction s as [|c s IH]; simpl; [reflexivity | now rewrite IH].
Qed.

Lemma visible_banner (W : Z) (name : string) :
  visible (banner W name)
  = "* " ++ name
    ++ Js.copies " " (Z.to_nat (W - Z.of_nat (String.length name) - 4))
    ++ " *".
Proof.
  unfold banner. rewrite !visible_app, !visible_chalk. simpl.
  now rewrite append_empty.
Qed.

(** A section whose title fits runs to the end of its callback. *)
Lemma section_fits (w : World) (name : string) (callback : M unit) (W : Z) :
  columns w = Some W ->
  Z.of_nat (String.length name) + 4 <= W ->
  section_ w name callback
  = ((Console Log [VStr (divider W)]
      :: Console Log [VStr (banner W name)]
      :: Console Log [VStr (divider W)]
      :: trace callback
      ++ match result callback with
         | Ok _ => [Console Log [str ""]]
         | Throw _ => []
         end)%list,
     match result callback with
     | Ok _ => Ok tt
     | Throw e => Throw e
     end).
Proof.
  intros Hcol Hfit. unfold section_, repeat. rewrite Hcol. simpl.
  destruct (Z.ltb_spec W 0) as [Hneg|_]; [lia|].
  destruct (Z.ltb_spec (W - Z.of_nat (String.length name) - 4) 0) as [Hneg|_];
    [lia|].
  destruct callback as [t [[]|e]]; cbn; rewrite ?app_nil_r; reflexivity.
Qed.

(** C6, as amended. When the reported width [W] leaves room for the title
    (its length plus the two 2-character markers is at most [W]), the second
    line [section] prints is the start marker, the title, [W - |T| - 4]
    spaces and the end marker, and its visible length is exactly [W]. *)
Theorem banner_line_fills_width
    (w : World) (name : string) (callback : M unit) (W : Z) :
  columns w = Some W ->
  Z.of_nat (String.length name) + 4 <= W ->
  nth_error (trace (section_ w name callback)) 1
    = Some (Console Log [VStr (banner W name)])
  /\ visible (banner W name)
     = "* " ++ name
       ++ Js.copies " " (Z.to_nat (W - Z.of_nat (String.length name) - 4))
       ++ " *"
  /\ Z.of_nat (String.length (visible (banner W name))) = W.
Proof.
  intros Hcol Hfit.
  rewrite (section_fits w name callback W Hcol Hfit).
  split; [reflexivity|]. split; [apply visible_banner|].
  rewrite visible_banner, !length_append, length_copies_char. simpl. lia.
Qed.

Lemma banner_line_fills_width_witness :
  columns roomy = Some 20
  /\ Z.of_nat (String.length "System") + 4 <= 20
  /\ nth_error (trace (section_ roomy "System" (system_body roomy))) 1
     = Some (Console Log
               [VStr [(Some dim, "* "); (Some green, "System");
                      (None, "          "); (Some dim, " *")]])
  /\ Z.of_nat (String.length (visible (banner 20 "System"))) = 20.
Proof.
  assert (Hfit : Z.of_nat (String.length "System") + 4 <= 20) by (simpl; lia).
  split; [reflexivity|]. split; [exact Hfit|].
  destruct (banner_line_fills_width roomy "System" (system_body roomy) 20
              eq_refl Hfit) as [Hline [_ Hlen]].
  split; [exact Hline | exact Hlen].
Defined.

(** C6, as stated, fails on a terminal 8 columns wide for the title
    "System": the only line printed is the first divider, so there is no
    banner line of visible length 8. *)
Lemma banner_line_counterexample :
  columns narrow = Some 8
  /\ section_ narrow "System" (system_body narrow)
     = ([Console Log [VStr (divider 8)]], Throw RangeError)
  /\ ~ (exists line,
          nth_error (trace (section_ narrow "System" (system_body narrow))) 1
          = Some (Console Log [VStr line])
          /\ Z.of_nat (String.length (visible line)) = 8).
Proof.
  split; [reflexivity|]. split; [reflexivity|].
  intros [line [H _]]. discriminate H.
Qed.

(** C8. On a terminal that reports a positive width [W], a title longer than
    [W - 4] makes [section] throw a [RangeError] once the first divider is
    printed: nothing else is printed and the callback is not run. *)
Theorem section_raises_when_title_too_long
    (w : World) (name : string) (callback : M unit) (W : Z) :
  columns w = Some W ->
  0 < W ->
  W - 4 < Z.of_nat (String.length name) ->
  section_ w name callback
  = ([Console Log [VStr (divider W)]], Throw RangeError).
Proof.
  intros Hcol Hpos Hlong. unfold section_, repeat. rewrite Hcol. simpl.
  destruct (Z.ltb_spec W 0) as [Hneg|_]; [lia|].
  destruct (Z.ltb_spec (W - Z.of_nat (String.length name) - 4) 0) as [_|Hge];
    [reflexivity | lia].
Qed.

Lemma section_raises_when_title_too_long_witness :
  columns narrow = Some 8
  /\ 8 - 4 < Z.of_nat (String.length "System")
  /\ section_ narrow "System" (system_body narrow)
     = ([Console Log [VStr [(Some dim, "========")]]], Throw RangeError).
Proof.
  assert (Hlong : 8 - 4 < Z.of_nat (String.length "System")) by (simpl; lia).
  split; [reflexivity|]. split; [exact Hlong|].
  exact (section_raises_when_title_too_long narrow "System"
           (system_body narrow) 8 eq_refl eq_refl Hlong).
Defined.

(** C9. When the width is undefined [section] does not throw for any title:
    both dividers are printed as the empty string, the banner shows the
    start marker, the title and the end marker only, the callback runs, and
    the section ends as the callback ends. *)
Theorem section_without_width
    (w : World) (name : string) (callback : M unit) :
  columns w = None ->
  section_ w name callback
  = ((Console Log [str ""]
      :: Console Log
           [VStr (chalk dim "* " ++ chalk green name ++ plain ""
                  ++ chalk dim " *")%list]
      :: Console Log [str ""]
      :: trace callback
      ++ match result callback with
         | Ok _ => [Console Log [str ""]]
         | Throw _ => []
         end)%list,
     match result callback with
     | Ok _ => Ok tt
     | Throw e => Throw e
     end)
  /\ visible (chalk dim "* " ++ chalk green name ++ plain ""
              ++ chalk dim " *")%list
     = "* " ++ name ++ " *".
Proof.
  intros Hcol. split.
  - unfold section_, repeat. rewrite Hcol.
    destruct callback as [t [[]|e]]; cbn; rewrite ?app_nil_r; reflexivity.
  - rewrite !visible_app, !visible_chalk. reflexivity.
Qed.

Lemma section_without_width_witness :
  columns piped = None
  /\ section_ piped "Git" (log [str "Branch:"])
     = ([Console Log [str ""];
         Console Log [VStr [(Some dim, "* "); (Some green, "Git"); (None, "");
                            (Some dim, " *")]];
         Console Log [str ""];
         Console Log [str "Branch:"];
         Console Log [str ""]], Ok tt).
Proof.
  split; [reflexivity|].
  exact (proj1 (section_without_width piped "Git" (log [str "Branch:"])
                  eq_refl)).
Defined.

(** ** The Node section *)

Section Node.

Variable satisfies : string -> string -> bool.
Variable w : World.

Lemma node_body_run (v d npm : string) (born : Z) (modules : nat) :
  sh w "node -v" = Exited 0 v ->
  sh w "echo $NVM_DIR" = Exited 0 d ->
  birthtime w "./node_modules/moment" = Some born ->
  sh w "npm -v" = Exited 0 npm ->
  entries w "./node_modules" = Some modules ->
  node_body satisfies w
  = (node_trace satisfies w (Js.trim v) (Js.trim d) (Js.trim npm)
       born modules, Ok tt).
Proof.
  intros Hv Hd Hborn Hnpm Hmod.
  unfold node_body, hasNvm, stat, readdir, oldInstall, node_trace, expected.
  rewrite (exec_ok _ _ _ Hv), (exec_ok _ _ _ Hd), (exec_ok _ _ _ Hnpm).
  rewrite Hborn, Hmod. cbn.
  destruct (satisfies (Js.trim v) "v12.18.3");
    destruct (Js.trim d =? "")%string;
    destruct (diff_days _ _ >=? 7); reflexivity.
Qed.

Lemma node_body_completes :
  result (node_body satisfies w) = Ok tt ->
  exists v d born npm modules,
    sh w "node -v" = Exited 0 v
    /\ sh w "echo $NVM_DIR" = Exited 0 d
    /\ birthtime w "./node_modules/moment" = Some born
    /\ sh w "npm -v" = Exited 0 npm
    /\ entries w "./node_modules" = Some modules.
Proof.
  intros H. unfold node_body, hasNvm, stat, readdir in H.
  destruct (exec_cases w "node -v") as [[v [Hv Ev]]|Ev];
    rewrite Ev in H; [|discriminate H].
  destruct (exec_cases w "echo $NVM_DIR") as [[d [Hd Ed]]|Ed];
    rewrite Ed in H; [|discriminate H].
  destruct (birthtime w "./node_modules/moment") as [born|] eqn:Hborn;
    [|discriminate H].
  destruct (exec_cases w "npm -v") as [[npm [Hnpm En]]|En];
    rewrite En in H;
    [|cbn in H; destruct (satisfies _ _); discriminate H].
  destruct (entries w "./node_modules") as [modules|] eqn:Hmod.
  - now exists v, d, born, npm, modules.
  - cbn in H. destruct (satisfies _ _); destruct (Js.trim d =? "")%string;
      discriminate H.
Qed.

(** C2. When the Node section body runs to its end, the error lines it
    prints are the two lines of the version check, if and only if the
    installed version does not satisfy v12.18.3, followed by the two lines of
    the version-manager check; the second line of the version check is
    [nvm install 2.18.3], which does not contain [12.18.3]. *)
Theorem remediation_command_drops_a_digit (v d : string) :
  sh w "node -v" = Exited 0 v ->
  sh w "echo $NVM_DIR" = Exited 0 d ->
  result (node_body satisfies w) = Ok tt ->
  lines Error (trace (node_body satisfies w))
  = ((if satisfies (Js.trim v) "v12.18.3" then []
      else mismatch_errors (Js.trim v))
     ++ (if (Js.trim d =? "")%string then nvm_errors else []))%list
  /\ "nvm install " ++ Js.slice 2 expected = "nvm install 2.18.3"
  /\ Js.includes (arrow ++ "nvm install 2.18.3") "12.18.3" = false.
Proof.
  intros Hv Hd Hend.
  destruct (node_body_completes Hend)
    as (v' & d' & born & npm & modules & Hv' & Hd' & Hborn & Hnpm & Hmod).
  rewrite Hv in Hv'. injection Hv' as <-.
  rewrite Hd in Hd'. injection Hd' as <-.
  split; [|split; reflexivity].
  rewrite (node_body_run v d npm born modules Hv Hd Hborn Hnpm Hmod).
  unfold trace, node_trace, lines. cbn [fst].
  rewrite !filter_app.
  destruct (satisfies (Js.trim v) "v12.18.3");
    destruct (Js.trim d =? "")%string;
    destruct (diff_days _ _ >=? 7); reflexivity.
Qed.

Lemma section_propagates (name : string) (callback : M unit) (e : exn) :
  result callback = Throw e ->
  exists e', result (section_ w name callback) = Throw e'.
Proof.
  intros H. destruct callback as [t [[]|e0]]; [discriminate H|].
  unfold section_, repeat.
  destruct (Js.to_integer (Js.of_option (columns w)) <? 0);
    [now exists RangeError|].
  destruct (Js.to_integer _ <? 0); cbn; eauto.
Qed.

(** Without the dependency directory the body stops at one of its first
    three observations. *)
Lemma node_body_without_directory :
  birthtime w "./node_modules/moment" = None ->
  node_body satisfies w
  = ([Spawn "node -v"], Throw (ChildProcessError "node -v"))
  \/ node_body satisfies w
     = ([Spawn "node -v"; Spawn "echo $NVM_DIR"],
        Throw (ChildProcessError "echo $NVM_DIR"))
  \/ (exists v d,
        sh w "node -v" = Exited 0 v /\ sh w "echo $NVM_DIR" = Exited 0 d)
     /\ node_body satisfies w
        = ([Spawn "node -v"; Spawn "echo $NVM_DIR";
            Stat "./node_modules/moment"],
           Throw (FsError "./node_modules/moment")).
Proof.
  intros Hborn. unfold node_body, hasNvm, stat. rewrite Hborn.
  destruct (exec_cases w "node -v") as [[v [Hv Ev]]|Ev]; rewrite Ev;
    [|now left].
  destruct (exec_cases w "echo $NVM_DIR") as [[d [Hd Ed]]|Ed]; rewrite Ed;
    [|now right; left].
  right; right. split; [now exists v, d | reflexivity].
Qed.

(** C7. If [./node_modules/moment] does not exist, the Node section body
    throws and nothing of it is printed: no line of the version, npm, nvm,
    environment, module-count or install-age checks, and neither the npm
    query nor the directory listing is run.  When the two commands before the
    [stat] succeed, the error thrown is that of the [stat].  The throw is not
    caught by the section or by the report. *)
Theorem missing_dependency_directory_aborts_section :
  birthtime w "./node_modules/moment" = None ->
  (exists e, result (node_body satisfies w) = Throw e)
  /\ filter printed (trace (node_body satisfies w)) = []
  /\ ~ In (Spawn "npm -v") (trace (node_body satisfies w))
  /\ ~ In (Readdir "./node_modules") (trace (node_body satisfies w))
  /\ (forall v d,
        sh w "node -v" = Exited 0 v ->
        sh w "echo $NVM_DIR" = Exited 0 d ->
        node_body satisfies w
        = ([Spawn "node -v"; Spawn "echo $NVM_DIR";
            Stat "./node_modules/moment"],
           Throw (FsError "./node_modules/moment")))
  /\ (exists e,
        result (section_ w "Node" (node_body satisfies w)) = Throw e)
  /\ (exists e, result (main satisfies w) = Throw e).
Proof.
  intros Hborn.
  assert (Hthrow : exists e, result (node_body satisfies w) = Throw e).
  { destruct (node_body_without_directory Hborn) as [E|[E|[_ E]]];
      rewrite E; cbn; eauto. }
  assert (Hsec : exists e,
             result (section_ w "Node" (node_body satisfies w)) = Throw e).
  { destruct Hthrow as [e He]. exact (section_propagates "Node" _ e He). }
  split; [exact Hthrow|].
  split; [|split; [|split; [|split; [|split; [exact Hsec|]]]]].
  - destruct (node_body_without_directory Hborn) as [E|[E|[_ E]]];
      rewrite E; reflexivity.
  - destruct (node_body_without_directory Hborn) as [E|[E|[_ E]]];
      rewrite E; cbn; intuition discriminate.
  - destruct (node_body_without_directory Hborn) as [E|[E|[_ E]]];
      rewrite E; cbn; intuition discriminate.
  - intros v d Hv Hd.
    unfold node_body, hasNvm, stat.
    rewrite (exec_ok _ _ _ Hv), (exec_ok _ _ _ Hd), Hborn. reflexivity.
  - destruct Hsec as [e He]. unfold main.
    destruct (section_ w "System" (system_body w)) as [t [[]|e0]];
      [|now exists e0].
    destruct (section_ w "Node" (node_body satisfies w)) as [t' [[]|e1]];
      [discriminate He|].
    now exists e1.
Qed.


End Node.

Lemma remediation_command_drops_a_digit_witness :
  sh newer_node "node -v" = Exited 0 ("v14.0.0" ++ LF)
  /\ sh newer_node "echo $NVM_DIR" = Exited 0 ("/home/dev/.nvm" ++ LF)
  /\ result (node_body same_version newer_node) = Ok tt
  /\ lines Error (trace (node_body same_version newer_node))
     = [ Console Error
           [VStr [(Some red,
                   arrow ++ "Installed Node version (v14.0.0) does not satisfy expectations (v12.18.3); please update.")]];
         Console Error [VStr [(Some red, arrow ++ "nvm install 2.18.3")]] ].
Proof.
  split; [reflexivity|]. split; [reflexivity|]. split; [reflexivity|].
  exact (proj1 (remediation_command_drops_a_digit same_version newer_node
                  ("v14.0.0" ++ LF) ("/home/dev/.nvm" ++ LF)
                  eq_refl eq_refl eq_refl)).
Defined.

Lemma missing_dependency_directory_aborts_section_witness :
  birthtime fresh_clone "./node_modules/moment" = None
  /\ node_body same_version fresh_clone
     = ([Spawn "node -v"; Spawn "echo $NVM_DIR"; Stat "./node_modules/moment"],
        Throw (FsError "./node_modules/moment")).
Proof.
  split; [reflexivity|].
  destruct (missing_dependency_directory_aborts_section same_version
              fresh_clone eq_refl) as (_ & _ & _ & _ & Hstat & _).
  exact (Hstat ("v12.18.3" ++ LF) ("/home/dev/.nvm" ++ LF) eq_refl eq_refl).
Defined.


(** ** The Git section *)

(** C4. Once the Git section body has computed the divergence count [d],
    the rebase warning is printed exactly when [d] is greater than 10,
    whatever the later commands do. *)
Theorem rebase_warning_above_threshold (w : World) (b c : string) (d : Z) :
  sh w "git branch --show-current" = Exited 0 b ->
  sh w ("git log --oneline " ++ Js.trim b ++ " ^develop | wc -l")
    = Exited 0 c ->
  Js.Number (Js.trim c) = Js.Int d ->
  (10 < d ->
   lines Warn (trace (git_body w)) = [rebase_warning (Js.trim b) (Js.Int d)])
  /\ (d <= 10 -> lines Warn (trace (git_body w)) = []).
Proof.
  intros Hb Hc Hd. unfold git_body.
  rewrite (exec_ok _ _ _ Hb). cbn -[Js.trim exec].
  erewrite (exec_ok w _ c) by exact Hc.
  cbn -[Js.trim exec Js.Number show Js.gt]. rewrite Hd.
  destruct (exec_cases w "git log -1 --pretty=%B") as [[m [_ Em]]|Em];
    rewrite Em;
    [destruct (exec_cases w "git status --porcelain") as [[s [_ Es]]|Es];
     rewrite Es|];
    cbn -[Js.trim show];
    (destruct (Z.gtb_spec d 10) as [Hgt|Hle]; split; intros H; try lia;
     reflexivity).
Qed.

Lemma rebase_warning_above_threshold_witness :
  sh roomy "git branch --show-current" = Exited 0 ("  feature" ++ LF)
  /\ sh roomy "git log --oneline feature ^develop | wc -l"
     = Exited 0 ("      11" ++ LF)
  /\ Js.Number "11" = Js.Int 11
  /\ lines Warn (trace (git_body roomy))
     = [ Console Warn
           [str "The local branch (feature) is over 10 commits apart (11) from develop; consider rebasing."] ].
Proof.
  split; [reflexivity|]. split; [reflexivity|]. split; [reflexivity|].
  apply (proj1 (rebase_warning_above_threshold roomy ("  feature" ++ LF)
                  ("      11" ++ LF) 11 eq_refl eq_refl eq_refl)).
  reflexivity.
Defined.

(** The other side of the boundary: ten commits ahead, no warning. *)
Example no_rebase_warning_at_ten :
  Js.Number (Js.trim ("10" ++ LF)) = Js.Int 10
  /\ result (git_body ten_ahead) = Ok tt
  /\ lines Warn (trace (git_body ten_ahead)) = [].
Proof.
  repeat split.
Qed.

(** * Further properties *)

(** ** Trimming *)

Lemma trimStart_fixed (s : string) :
  Js.clean_edge (Js.first_char s) = true -> Js.trimStart s = s.
Proof.
  destruct s as [|c s]; simpl; [reflexivity|].
  destruct (Js.is_white c); [discriminate | reflexivity].
Qed.

Lemma trimEnd_fixed (s : string) :
  Js.clean_edge (Js.last_char s) = true -> Js.trimEnd s = s.
Proof.
  induction s as [|c s IH]; [reflexivity|].
  destruct s as [|c' s].
  - simpl. destruct (Js.is_white c); [discriminate | reflexivity].
  - intros H. change (Js.last_char (String c (String c' s)))
      with (Js.last_char (String c' s)) in H.
    specialize (IH H).
    change (Js.trimEnd (String c (String c' s)))
      with (match Js.trimEnd (String c' s) with
            | EmptyString =>
                if Js.is_white c then EmptyString else String c EmptyString
            | r => String c r
            end).
    now rewrite IH.
Qed.

Lemma trimStart_white (l s : string) :
  Js.all_white l = true -> Js.trimStart (l ++ s) = Js.trimStart s.
Proof.
  induction l as [|c l IH]; simpl; [reflexivity|].
  destruct (Js.is_white c); [exact IH | discriminate].
Qed.

Lemma trimEnd_white (r : string) :
  Js.all_white r = true -> Js.trimEnd r = "".
Proof.
  induction r as [|c r IH]; simpl; [reflexivity|].
  destruct (Js.is_white c); [|discriminate].
  intros H. now rewrite (IH H).
Qed.

Lemma trimEnd_app_white (s r : string) :
  Js.all_white r = true -> Js.trimEnd (s ++ r) = Js.trimEnd s.
Proof.
  intros Hr. induction s as [|c s IH]; simpl.
  - now apply trimEnd_white.
  - now rewrite IH.
Qed.

Lemma all_white_app (l r : string) :
  Js.all_white (l ++ r) = (Js.all_white l && Js.all_white r)%bool.
Proof.
  induction l as [|c l IH]; simpl; [reflexivity|].
  rewrite IH. now destruct (Js.is_white c).
Qed.

Lemma stripped_trim (s t : string) : stripped s t -> Js.trim s = t.
Proof.
  intros [(l & r & -> & Hl & Hr) [Hfirst Hlast]]. unfold Js.trim.
  rewrite (trimStart_white l _ Hl).
  destruct t as [|c t].
  - simpl. rewrite <- (append_empty r), (trimStart_white r "" Hr).
    reflexivity.
  - rewrite trimStart_fixed by exact Hfirst.
    rewrite (trimEnd_app_white _ r Hr). now apply trimEnd_fixed.
Qed.

Lemma trim_fixed (s : string) : Js.trim (Js.trim s) = Js.trim s.
Proof.
  destruct (trim_stripped s) as [_ [Hfirst Hlast]].
  unfold Js.trim at 1.
  rewrite trimStart_fixed by exact Hfirst. now apply trimEnd_fixed.
Qed.

Lemma trim_empty (s : string) :
  Js.trim s = "" <-> Js.all_white s = true.
Proof.
  split.
  - intros H. destruct (trim_stripped s) as [(l & r & Hs & Hl & Hr) _].
    rewrite H in Hs. simpl in Hs. rewrite Hs, all_white_app, Hl, Hr.
    reflexivity.
  - intros H. unfold Js.trim.
    rewrite <- (append_empty s), (trimStart_white s "" H). reflexivity.
Qed.

(** X1. [trim] is the only way to strip a string: whenever a standard
    output splits as white space, a text without white space at either end,
    and white space, that text is what [exec] returns. *)
Theorem exec_returns_the_only_stripping (w : World) (command out t : string) :
  sh w command = Exited 0 out ->
  stripped out t ->
  result (exec w command) = Ok t.
Proof.
  intros Hout Hstrip. rewrite (exec_ok _ _ _ Hout). cbn.
  now rewrite (stripped_trim _ _ Hstrip).
Qed.

(** X2. What [exec] returns is already trimmed: trimming it again, as the
    Git section does with the last commit message, changes nothing. *)
Theorem exec_result_is_trimmed (w : World) (command : string) :
  match result (exec w command) with
  | Ok out => Js.trim out = out
  | Throw _ => True
  end.
Proof.
  destruct (exec_cases w command) as [[out [_ E]]|E]; rewrite E; cbn;
    [apply trim_fixed | exact I].
Qed.

(** X3. [exec] returns the empty string exactly when the command succeeded
    and printed nothing but white space. *)
Theorem exec_empty_iff_blank_output (w : World) (command : string) :
  result (exec w command) = Ok ""
  <-> exists out, sh w command = Exited 0 out /\ Js.all_white out = true.
Proof.
  split.
  - destruct (exec_cases w command) as [[out [Hout E]]|E]; rewrite E; cbn;
      intros H; [|discriminate H].
    injection H as H. exists out. split; [exact Hout | now apply trim_empty].
  - intros (out & Hout & Hwhite). rewrite (exec_ok _ _ _ Hout). cbn.
    f_equal. now apply trim_empty.
Qed.

Lemma exec_returns_the_only_stripping_witness :
  sh roomy "git branch --show-current" = Exited 0 ("  feature" ++ LF)
  /\ stripped ("  feature" ++ LF) "feature"
  /\ result (exec roomy "git branch --show-current") = Ok "feature".
Proof.
  assert (Hstrip : stripped ("  feature" ++ LF) "feature").
  { split; [|split; reflexivity].
    exists "  ", LF. repeat split. }
  split; [reflexivity|]. split; [exact Hstrip|].
  exact (exec_returns_the_only_stripping roomy "git branch --show-current"
           ("  feature" ++ LF) "feature" eq_refl Hstrip).
Defined.

(** ** Reading a count *)

Lemma digit_not_white (c : ascii) :
  Js.is_digit c = true -> Js.is_white c = false.
Proof.
  destruct c as [[] [] [] [] [] [] [] []]; vm_compute; intros H;
    first [reflexivity | discriminate H].
Qed.

Lemma all_digits_first (s : string) :
  all_digits s = true -> Js.clean_edge (Js.first_char s) = true.
Proof.
  destruct s as [|c s]; simpl; [reflexivity|].
  intros H. apply andb_prop in H as [Hc _].
  now rewrite (digit_not_white c Hc).
Qed.

Lemma all_digits_last (s : string) :
  all_digits s = true -> Js.clean_edge (Js.last_char s) = true.
Proof.
  induction s as [|c s IH]; [reflexivity|].
  intros H. simpl in H. apply andb_prop in H as [Hc Hs].
  destruct s as [|c' s].
  - simpl. now rewrite (digit_not_white c Hc).
  - exact (IH Hs).
Qed.

Lemma digits_value (s : string) :
  all_digits s = true ->
  forall acc, 0 <= acc -> exists n, Js.digits acc s = Js.Int n /\ 0 <= n.
Proof.
  induction s as [|c s IH]; cbn [Js.digits all_digits]; intros H acc Hacc.
  - now exists acc.
  - apply andb_prop in H as [Hc Hs]. rewrite Hc.
    apply (IH Hs).
    apply Z.add_nonneg_nonneg; [lia | apply Nat2Z.is_nonneg].
Qed.

(** X4. A line count padded with white space on either side, as [wc -l]
    prints it on some systems, is read as the same number as the bare
    digits, and that number is a non-negative integer, never [NaN]. *)
Theorem padded_count_is_read (l ds r : string) :
  Js.all_white l = true ->
  Js.all_white r = true ->
  all_digits ds = true ->
  Js.Number (Js.trim (l ++ ds ++ r)) = Js.Number ds
  /\ exists n, Js.Number ds = Js.Int n /\ 0 <= n.
Proof.
  intros Hl Hr Hds.
  assert (Hclean : forall s, stripped s ds -> Js.trim s = ds)
    by (intros s; apply stripped_trim).
  assert (Hself : Js.trim ds = ds).
  { apply Hclean. split; [|split].
    - exists "", "". simpl. now rewrite append_empty.
    - now apply all_digits_first.
    - now apply all_digits_last. }
  split.
  - rewrite (Hclean (l ++ ds ++ r)).
    + reflexivity.
    + split; [|split].
      * now exists l, r.
      * now apply all_digits_first.
      * now apply all_digits_last.
  - unfold Js.Number. rewrite Hself. apply digits_value; [exact Hds | lia].
Qed.

Lemma padded_count_is_read_witness :
  Js.all_white "      " = true
  /\ Js.all_white LF = true
  /\ all_digits "11" = true
  /\ Js.Number (Js.trim ("      " ++ "11" ++ LF)) = Js.Number "11".
Proof.
  split; [reflexivity|]. split; [reflexivity|]. split; [reflexivity|].
  exact (proj1 (padded_count_is_read "      " "11" LF
                  eq_refl eq_refl eq_refl)).
Defined.

(** ** The section renderer *)

Lemma length_visible_divider (W : Z) :
  0 <= W -> Z.of_nat (String.length (visible (divider W))) = W.
Proof.
  intros HW. unfold divider. rewrite visible_chalk, length_copies_char. lia.
Qed.

(** X5. When the title fits, the banner is a rectangle: the first and the
    third line printed are the same divider, whose visible length is the
    terminal width, as is that of the title line between them. *)
Theorem banner_is_a_rectangle
    (w : World) (name : string) (callback : M unit) (W : Z) :
  columns w = Some W ->
  Z.of_nat (String.length name) + 4 <= W ->
  nth_error (trace (section_ w name callback)) 0
    = Some (Console Log [VStr (divider W)])
  /\ nth_error (trace (section_ w name callback)) 2
     = Some (Console Log [VStr (divider W)])
  /\ Z.of_nat (String.length (visible (divider W))) = W
  /\ String.length (visible (divider W))
     = String.length (visible (banner W name)).
Proof.
  intros Hcol Hfit.
  rewrite (section_fits w name callback W Hcol Hfit).
  split; [reflexivity|]. split; [reflexivity|].
  assert (Hdiv : Z.of_nat (String.length (visible (divider W))) = W)
    by (apply length_visible_divider; lia).
  split; [exact Hdiv|].
  apply Nat2Z.inj. rewrite Hdiv.
  rewrite visible_banner, !length_append, length_copies_char. simpl. lia.
Qed.

Lemma banner_is_a_rectangle_witness :
  columns roomy = Some 20
  /\ Z.of_nat (String.length "Node") + 4 <= 20
  /\ visible (divider 20) = "===================="
  /\ visible (banner 20 "Node") = "* Node             *"
  /\ String.length (visible (divider 20))
     = String.length (visible (banner 20 "Node")).
Proof.
  assert (Hfit : Z.of_nat (String.length "Node") + 4 <= 20) by (simpl; lia).
  split; [reflexivity|]. split; [exact Hfit|].
  split; [reflexivity|]. split; [reflexivity|].
  exact (proj2 (proj2 (proj2 (banner_is_a_rectangle roomy "Node" (ret tt) 20
                                eq_refl Hfit)))).
Defined.

(** X6. A section whose title fits, or whose width is undefined, prints
    three lines, runs its callback, and ends as the callback ends: an error
    thrown by the callback leaves the section unchanged, and the closing
    blank line is printed only when the callback succeeded. *)
Theorem section_ends_as_callback
    (w : World) (name : string) (callback : M unit) :
  fits w name = true ->
  result (section_ w name callback)
  = match result callback with
    | Ok _ => Ok tt
    | Throw e => Throw e
    end
  /\ exists head,
       length head = 3%nat
       /\ forallb printed head = true
       /\ trace (section_ w name callback)
          = (head ++ trace callback
             ++ if succeeds callback then [Console Log [str ""]] else [])%list.
Proof.
  unfold fits. destruct (columns w) as [W|] eqn:Hcol; intros Hfit.
  - apply Z.leb_le in Hfit.
    rewrite (section_fits w name callback W Hcol Hfit).
    split; [reflexivity|].
    exists [Console Log [VStr (divider W)]; Console Log [VStr (banner W name)];
            Console Log [VStr (divider W)]].
    repeat split. unfold succeeds. cbn.
    destruct (result callback); reflexivity.
  - unfold section_, repeat. rewrite Hcol.
    destruct callback as [t [[]|e]]; cbn; rewrite ?app_nil_r;
      (split; [reflexivity|]);
      eexists [_; _; _]; (split; [reflexivity|]);
      (split; [|reflexivity]); reflexivity.
Qed.

Lemma section_ends_as_callback_witness :
  fits fresh_clone "Node" = true
  /\ result (section_ fresh_clone "Node" (node_body same_version fresh_clone))
     = Throw (FsError "./node_modules/moment").
Proof.
  split; [reflexivity|].
  exact (proj1 (section_ends_as_callback fresh_clone "Node"
                  (node_body same_version fresh_clone) eq_refl)).
Defined.

(** X7. A section whose title does not fit never runs its callback, also on
    a terminal that reports a width of zero or less: it throws a
    [RangeError] after the first divider, or before printing anything when
    the width is negative. *)
Theorem section_without_room
    (w : World) (name : string) (callback : M unit) (W : Z) :
  columns w = Some W ->
  W < Z.of_nat (String.length name) + 4 ->
  section_ w name callback
  = (if W <? 0 then [] else [Console Log [VStr (divider W)]],
     Throw RangeError).
Proof.
  intros Hcol Hshort. unfold section_, repeat. rewrite Hcol. simpl.
  destruct (Z.ltb_spec W 0) as [Hneg|Hpos]; [reflexivity|].
  destruct (Z.ltb_spec (W - Z.of_nat (String.length name) - 4) 0) as [_|Hge];
    [reflexivity | lia].
Qed.

Lemma section_without_room_witness :
  columns (machine (Some 0) healthy (Some 0) 0) = Some 0
  /\ 0 < Z.of_nat (String.length "Git") + 4
  /\ section_ (machine (Some 0) healthy (Some 0) 0) "Git" (log [str "Branch:"])
     = ([Console Log [str ""]], Throw RangeError).
Proof.
  assert (Hshort : 0 < Z.of_nat (String.length "Git") + 4) by (simpl; lia).
  split; [reflexivity|]. split; [exact Hshort|].
  exact (section_without_room (machine (Some 0) healthy (Some 0) 0) "Git"
           (log [str "Branch:"]) 0 eq_refl Hshort).
Defined.

(** ** The System section *)

Lemma system_body_run (w : World) : system_body w = (system_trace w, Ok tt).
Proof.
  unfold system_body, system_trace, ping, hasInternetAccess, isDockerRunning,
    axios_get, dns_resolve, execSync.
  destruct (request w "https://metadata.int.thomsonreuters.com" false);
    destruct (lookup w "www.google.com");
    destruct (sh w "docker version") as [[|p|p] out| |]; reflexivity.
Qed.

(** X8. The System section body cannot fail: on every machine it makes its
    three probes (the GET first and without certificate validation, then the
    name resolution, then the Docker query), prints its six lines in the
    same order, and returns. *)
Theorem system_body_never_throws (w : World) :
  system_body w = (system_trace w, Ok tt)
  /\ lines Error (system_trace w) = []
  /\ lines Warn (system_trace w) = [].
Proof.
  split; [apply system_body_run | split; reflexivity].
Qed.

(** ** The Node section, continued *)

Lemma quot_day_threshold (x : Z) : (x ÷ DAY >=? 7) = true <-> 7 * DAY <= x.
Proof.
  unfold DAY. rewrite Z.geb_le.
  pose proof (Z.quot_rem' x 86400000) as Hx.
  destruct (Z_le_gt_dec 0 x) as [Hpos|Hneg].
  - pose proof (Z.rem_bound_pos x 86400000 Hpos ltac:(lia)). lia.
  - pose proof (Z.rem_bound_pos_neg x 86400000 ltac:(lia) ltac:(lia)). lia.
Qed.

(** X9. [oldInstall] is true exactly when at least 604800000 milliseconds
    (seven times 86400000) lie between the creation time and the current
    time, after adding the milliseconds by which the local UTC offset has
    grown in between.  At an unchanged offset, a creation time in the
    future, or less than 604800000 milliseconds in the past, gives
    [false]. *)
Theorem old_install_in_milliseconds (w : World) (born : Z) :
  (oldInstall w (moment_at w born) = true
   <-> 604800000
       <= clock w - born + (utcOffset w (clock w) - utcOffset w born) * 60000)
  /\ (utcOffset w born = utcOffset w (clock w) ->
      clock w - born < 604800000 ->
      oldInstall w (moment_at w born) = false).
Proof.
  assert (Hiff : oldInstall w (moment_at w born) = true
                 <-> 604800000
                     <= clock w - born
                        + (utcOffset w (clock w) - utcOffset w born) * 60000).
  { unfold oldInstall, diff_days, moment_at, Js.ge. cbn [valueOf offset].
    rewrite quot_day_threshold. unfold DAY. lia. }
  split; [exact Hiff|].
  intros Hsame Hrecent.
  destruct (oldInstall w (moment_at w born)) eqn:Hold; [|reflexivity].
  destruct Hiff as [Hto _]. specialize (Hto eq_refl).
  rewrite Hsame in Hto. lia.
Qed.

Section NodeAborts.

Variable satisfies : string -> string -> bool.
Variable w : World.

(** X10. If the Node section body throws, at whichever observation, no
    stale-dependency warning has been printed: the warning is only ever the
    last thing a complete run of the body prints. *)
Theorem no_warning_from_an_aborted_node_section (e : exn) :
  result (node_body satisfies w) = Throw e ->
  lines Warn (trace (node_body satisfies w)) = [].
Proof.
  intros H.
  destruct (exec_cases w "node -v") as [[v [Hv Ev]]|Ev];
    [|unfold node_body; rewrite Ev; reflexivity].
  destruct (exec_cases w "echo $NVM_DIR") as [[d [Hd Ed]]|Ed];
    [|unfold node_body, hasNvm; rewrite Ev, Ed; reflexivity].
  destruct (birthtime w "./node_modules/moment") as [born|] eqn:Hborn;
    [|unfold node_body, hasNvm, stat; rewrite Ev, Ed, Hborn; reflexivity].
  destruct (exec_cases w "npm -v") as [[npm [Hnpm En]]|En];
    [|unfold node_body, hasNvm, stat; rewrite Ev, Ed, Hborn, En; cbn;
      destruct (satisfies _ _); reflexivity].
  destruct (entries w "./node_modules") as [modules|] eqn:Hmod.
  - rewrite (node_body_run satisfies w v d npm born modules
               Hv Hd Hborn Hnpm Hmod) in H.
    discriminate H.
  - unfold node_body, hasNvm, stat, readdir.
    rewrite Ev, Ed, Hborn, En, Hmod. cbn.
    destruct (satisfies _ _); destruct (Js.trim d =? "")%string; reflexivity.
Qed.

End NodeAborts.

Lemma no_warning_from_an_aborted_node_section_witness :
  result (node_body same_version
            (machine (Some 80) (("npm -v", NotSpawned) :: healthy)
               (Some 0) (30 * DAY)))
  = Throw (ChildProcessError "npm -v")
  /\ lines Warn
       (trace (node_body same_version
                 (machine (Some 80) (("npm -v", NotSpawned) :: healthy)
                    (Some 0) (30 * DAY))))
     = [].
Proof.
  split; [reflexivity|].
  exact (no_warning_from_an_aborted_node_section same_version
           (machine (Some 80) (("npm -v", NotSpawned) :: healthy)
              (Some 0) (30 * DAY))
           (ChildProcessError "npm -v") eq_refl).
Defined.

(** ** What a run observes *)

Lemma forallb_bind {A B} (P : event -> bool) (c : M A) (k : A -> M B) :
  forallb P (trace c) = true ->
  (forall a, result c = Ok a -> forallb P (trace (k a)) = true) ->
  forallb P (trace (bind c k)) = true.
Proof.
  destruct c as [t [a|e]]; cbn; intros Ht Hk; [|exact Ht].
  specialize (Hk a eq_refl). destruct (k a) as [t' r]. cbn in *.
  rewrite forallb_app, Ht, Hk. reflexivity.
Qed.

Lemma trace_exec (w : World) (command : string) :
  trace (exec w command) = [Spawn command].
Proof.
  destruct (exec_cases w command) as [[out [_ E]]|E]; now rewrite E.
Qed.

Lemma result_exec (w : World) (command a : string) :
  result (exec w command) = Ok a ->
  exists out, sh w command = Exited 0 out /\ a = Js.trim out.
Proof.
  destruct (exec_cases w command) as [[out [Hout E]]|E]; rewrite E; cbn;
    intros H; [|discriminate H].
  injection H as <-. now exists out.
Qed.

Section Observations.

Variable P : event -> bool.
Hypothesis P_console : forall m args, P (Console m args) = true.

Variable w : World.

Lemma observes_console (m : method) (args : list value) :
  forallb P (trace (console m args)) = true.
Proof.
  cbn. now rewrite P_console.
Qed.

Lemma observes_exec (command : string) :
  P (Spawn command) = true -> forallb P (trace (exec w command)) = true.
Proof.
  intros H. rewrite trace_exec. cbn. now rewrite H.
Qed.

Lemma observes_when (b : bool) (c : M unit) :
  forallb P (trace c) = true -> forallb P (trace (when b c)) = true.
Proof.
  destruct b; [trivial | reflexivity].
Qed.

Lemma observes_stat (path : string) :
  P (Stat path) = true -> forallb P (trace (stat w path)) = true.
Proof.
  intros H. unfold stat, emit. destruct (birthtime w path); cbn;
    now rewrite H.
Qed.

Lemma observes_readdir (path : string) :
  P (Readdir path) = true -> forallb P (trace (readdir w path)) = true.
Proof.
  intros H. unfold readdir, emit. destruct (entries w path); cbn;
    now rewrite H.
Qed.

Ltac observe :=
  repeat first
    [ apply observes_console
    | apply observes_exec; assumption
    | apply observes_stat; assumption
    | apply observes_readdir; assumption
    | apply observes_when
    | apply forallb_bind; [|intros ? ?] ].

Lemma observes_section (name : string) (callback : M unit) :
  forallb P (trace callback) = true ->
  forallb P (trace (section_ w name callback)) = true.
Proof.
  intros Hcb. unfold section_, repeat, log.
  apply forallb_bind; [destruct (_ <? 0); reflexivity | intros ? _].
  apply forallb_bind; [apply observes_console | intros ? _].
  apply forallb_bind; [destruct (_ <? 0); reflexivity | intros ? _].
  observe. exact Hcb.
Qed.

Lemma observes_system :
  P (HttpGet "https://metadata.int.thomsonreuters.com" false) = true ->
  P (DnsResolve "www.google.com") = true ->
  P (Spawn "docker version") = true ->
  forallb P (trace (system_body w)) = true.
Proof.
  intros Hget Hdns Hdocker. rewrite system_body_run.
  cbn. now rewrite Hget, Hdns, Hdocker, !P_console.
Qed.

Variable satisfies : string -> string -> bool.

Lemma observes_node :
  P (Spawn "node -v") = true ->
  P (Spawn "echo $NVM_DIR") = true ->
  P (Spawn "npm -v") = true ->
  P (Stat "./node_modules/moment") = true ->
  P (Readdir "./node_modules") = true ->
  forallb P (trace (node_body satisfies w)) = true.
Proof.
  intros Hnode Hecho Hnpm Hstat Hdir.
  unfold node_body, hasNvm, error, warn, log. cbv zeta. observe.
  reflexivity.
Qed.

Lemma observes_git :
  P (Spawn "git branch --show-current") = true ->
  (forall out,
     sh w "git branch --show-current" = Exited 0 out ->
     P (Spawn (count_command (Js.trim out))) = true) ->
  P (Spawn "git log -1 --pretty=%B") = true ->
  P (Spawn "git status --porcelain") = true ->
  forallb P (trace (git_body w)) = true.
Proof.
  intros Hbranch Hcount Hlast Hstatus. unfold git_body, log.
  apply forallb_bind; [now apply observes_exec | intros b Hb].
  apply result_exec in Hb as (out & Hout & ->).
  apply forallb_bind; [apply observes_exec; exact (Hcount out Hout)
                      | intros ? _].
  cbv zeta. observe.
Qed.

Lemma observes_main :
  P (HttpGet "https://metadata.int.thomsonreuters.com" false) = true ->
  P (DnsResolve "www.google.com") = true ->
  P (Spawn "docker version") = true ->
  P (Spawn "node -v") = true ->
  P (Spawn "echo $NVM_DIR") = true ->
  P (Spawn "npm -v") = true ->
  P (Stat "./node_modules/moment") = true ->
  P (Readdir "./node_modules") = true ->
  P (Spawn "git branch --show-current") = true ->
  (forall out,
     sh w "git branch --show-current" = Exited 0 out ->
     P (Spawn (count_command (Js.trim out))) = true) ->
  P (Spawn "git log -1 --pretty=%B") = true ->
  P (Spawn "git status --porcelain") = true ->
  forallb P (trace (main satisfies w)) = true.
Proof.
  intros. unfold main.
  apply forallb_bind;
    [apply observes_section; now apply observes_system | intros ? _].
  apply forallb_bind;
    [apply observes_section; now apply observes_node | intros ? _].
  apply observes_section. now apply observes_git.
Qed.

End Observations.

(** X11. On every machine, whatever fails, the report requests one URL only
    and never validates its certificate, resolves one name only, and reads
    no path other than [./node_modules/moment] and [./node_modules]. *)
Theorem report_observations
    (satisfies : string -> string -> bool) (w : World) :
  forallb expected_observation (trace (main satisfies w)) = true.
Proof.
  apply observes_main; reflexivity.
Qed.

(** X12. On every machine the commands the report runs are among its eight:
    seven fixed ones and the count command, into which nothing but the
    trimmed output of the branch query is spliced. *)
Theorem report_commands
    (satisfies : string -> string -> bool) (w : World) :
  forallb (report_command w) (trace (main satisfies w)) = true.
Proof.
  apply observes_main; try reflexivity.
  intros out Hout. unfold report_command, git_command.
  rewrite Hout, String.eqb_refl, !orb_true_r. reflexivity.
Qed.

(** X13. If the Node section body throws, the report stops there: no git
    command is run, the only commands in the trace being those of the System
    and Node sections. *)
Theorem git_is_not_run_after_node_fails
    (satisfies : string -> string -> bool) (w : World) (e : exn) :
  result (node_body satisfies w) = Throw e ->
  forallb before_git (trace (main satisfies w)) = true
  /\ exists e', result (main satisfies w) = Throw e'.
Proof.
  intros Hnode.
  destruct (section_propagates w "Node" _ e Hnode) as [e' He'].
  split.
  - unfold main.
    apply forallb_bind;
      [apply observes_section; [reflexivity|];
       apply observes_system; reflexivity
      | intros ? _].
    apply forallb_bind;
      [apply observes_section; [reflexivity|];
       apply observes_node; reflexivity
      | intros done Hdone].
    rewrite He' in Hdone. discriminate Hdone.
  - unfold main.
    destruct (section_ w "System" (system_body w)) as [t [[]|e0]];
      [|now exists e0].
    destruct (section_ w "Node" (node_body satisfies w)) as [t' [[]|e1]];
      [discriminate He'|].
    now exists e1.
Qed.

Lemma git_is_not_run_after_node_fails_witness :
  result (node_body same_version fresh_clone)
  = Throw (FsError "./node_modules/moment")
  /\ spawned (trace (main same_version fresh_clone))
     = ["docker version"; "node -v"; "echo $NVM_DIR"]
  /\ forallb before_git (trace (main same_version fresh_clone)) = true.
Proof.
  split; [reflexivity|]. split; [reflexivity|].
  exact (proj1 (git_is_not_run_after_node_fails same_version fresh_clone
                  (FsError "./node_modules/moment") eq_refl)).
Defined.

Lemma result_bind {A B} (c : M A) (k : A -> M B) :
  result (bind c k)
  = match result c with
    | Ok a => result (k a)
    | Throw e => Throw e
    end.
Proof.
  destruct c as [t [a|e]]; cbn; [|reflexivity].
  destruct (k a); reflexivity.
Qed.

Lemma section_result (w : World) (name : string) (callback : M unit) :
  fits w name = true ->
  result (section_ w name callback)
  = match result callback with
    | Ok _ => Ok tt
    | Throw e => Throw e
    end.
Proof.
  unfold fits. destruct (columns w) as [W|] eqn:Hcol; intros Hfit.
  - apply Z.leb_le in Hfit.
    now rewrite (section_fits w name callback W Hcol Hfit).
  - unfold section_, repeat. rewrite Hcol.
    destruct callback as [t [[]|e]]; reflexivity.
Qed.

Lemma fits_shorter (w : World) (name name' : string) :
  (String.length name' <= String.length name)%nat ->
  fits w name = true -> fits w name' = true.
Proof.
  unfold fits. destruct (columns w) as [W|]; [|trivial].
  rewrite !Z.leb_le. lia.
Qed.

(** X14. On a terminal wide enough for the System banner, or without a
    width, the banners and the System section never fail: the report fails
    exactly when the Node section body or, after it, the Git section body
    throws, and with that very error. *)
Theorem report_fails_as_its_first_failing_body
    (satisfies : string -> string -> bool) (w : World) :
  fits w "System" = true ->
  result (main satisfies w)
  = match result (node_body satisfies w) with
    | Throw e => Throw e
    | Ok _ =>
        match result (git_body w) with
        | Throw e => Throw e
        | Ok _ => Ok tt
        end
    end.
Proof.
  intros Hfit. unfold main.
  assert (Hnode : fits w "Node" = true)
    by (apply (fits_shorter w "System"); [simpl; lia | exact Hfit]).
  assert (Hgit : fits w "Git" = true)
    by (apply (fits_shorter w "System"); [simpl; lia | exact Hfit]).
  rewrite !result_bind, !section_result by assumption.
  rewrite system_body_run. cbn.
  destruct (result (node_body satisfies w)) as [[]|e]; reflexivity.
Qed.

Lemma report_fails_as_its_first_failing_body_witness :
  fits no_git "System" = true
  /\ result (main same_version no_git)
     = Throw (ChildProcessError "git branch --show-current").
Proof.
  split; [reflexivity|].
  exact (report_fails_as_its_first_failing_body same_version no_git eq_refl).
Defined.

(** ** The Git section, continued *)

Lemma trim_eqb_empty (s : string) :
  (Js.trim s =? "")%string = Js.all_white s.
Proof.
  destruct (String.eqb_spec (Js.trim s) "") as [H|H].
  - symmetry. now apply trim_empty.
  - destruct (Js.all_white s) eqn:Hw; [|reflexivity].
    now apply trim_empty in Hw.
Qed.

Lemma git_body_run (w : World) (b c m s : string) :
  sh w "git branch --show-current" = Exited 0 b ->
  sh w (count_command (Js.trim b)) = Exited 0 c ->
  sh w "git log -1 --pretty=%B" = Exited 0 m ->
  sh w "git status --porcelain" = Exited 0 s ->
  git_body w
  = (([ Spawn "git branch --show-current";
        Spawn (count_command (Js.trim b));
        Console Log [str "Branch:"; str (Js.trim b)];
        Console Log [str "Difference:"; VNum (Js.Number (Js.trim c))] ]
      ++ (if Js.gt (Js.Number (Js.trim c)) (Js.Int 10)
          then [rebase_warning (Js.trim b) (Js.Number (Js.trim c))]
          else [])
      ++ [ Spawn "git log -1 --pretty=%B";
           Console Log [str "Last commit:"; str (Js.trim m)];
           Spawn "git status --porcelain";
           Console Log [str "Clean:"; VBool (Js.all_white s)] ])%list,
     Ok tt).
Proof.
  intros Hb Hc Hm Hs. unfold git_body.
  rewrite (exec_ok _ _ _ Hb). cbn -[Js.trim exec].
  erewrite (exec_ok w _ c) by exact Hc.
  cbn -[Js.trim exec Js.Number show Js.gt].
  rewrite (exec_ok _ _ _ Hm), (exec_ok _ _ _ Hs).
  cbn -[Js.trim Js.Number show Js.gt].
  rewrite trim_fixed, trim_eqb_empty.
  destruct (Js.gt (Js.Number (Js.trim c)) threshold) eqn:Hgt;
    unfold threshold in Hgt; rewrite Hgt; reflexivity.
Qed.

Lemma digits_foreign (s : string) :
  foreign s = true -> forall acc, Js.digits acc s = Js.NaN.
Proof.
  induction s as [|c s IH]; cbn [foreign Js.digits]; intros H acc;
    [discriminate H|].
  destruct (Js.is_digit c) eqn:Hc; [|reflexivity].
  apply IH. unfold numeric_char in H. rewrite Hc in H. exact H.
Qed.

(** X15. When the trimmed output of the count command has a character that
    no numeric literal has (anything but a digit, a sign, a dot, a
    hexadecimal digit, [x], [o] and the letters of [Infinity]), the
    difference is [NaN]: it is printed as such and no rebase warning is
    printed, whatever the later commands do. *)
Theorem no_warning_without_a_count (w : World) (b c : string) :
  sh w "git branch --show-current" = Exited 0 b ->
  sh w (count_command (Js.trim b)) = Exited 0 c ->
  foreign (Js.trim c) = true ->
  lines Warn (trace (git_body w)) = []
  /\ In (Console Log [str "Difference:"; VNum Js.NaN]) (trace (git_body w)).
Proof.
  intros Hb Hc Hforeign.
  assert (Hnan : Js.Number (Js.trim c) = Js.NaN).
  { unfold Js.Number. rewrite trim_fixed. now apply digits_foreign. }
  unfold git_body.
  rewrite (exec_ok _ _ _ Hb). cbn -[Js.trim exec].
  erewrite (exec_ok w _ c) by exact Hc.
  cbn -[Js.trim exec Js.Number show Js.gt]. rewrite Hnan.
  destruct (exec_cases w "git log -1 --pretty=%B") as [[m [_ Em]]|Em];
    rewrite Em;
    [destruct (exec_cases w "git status --porcelain") as [[s [_ Es]]|Es];
     rewrite Es|];
    cbn -[Js.trim]; (split; [reflexivity | auto]).
Qed.

Lemma no_warning_without_a_count_witness :
  sh odd_count "git branch --show-current" = Exited 0 ("  feature" ++ LF)
  /\ sh odd_count (count_command "feature") = Exited 0 ("many" ++ LF)
  /\ foreign (Js.trim ("many" ++ LF)) = true
  /\ lines Warn (trace (git_body odd_count)) = []
  /\ In (Console Log [str "Difference:"; VNum Js.NaN])
       (trace (git_body odd_count)).
Proof.
  split; [reflexivity|]. split; [reflexivity|]. split; [reflexivity|].
  exact (no_warning_without_a_count odd_count ("  feature" ++ LF)
           ("many" ++ LF) eq_refl eq_refl eq_refl).
Defined.

(** X16. When its four commands succeed the Git section body runs to its
    end; the [Clean:] line says [true] exactly when the porcelain status
    printed nothing but white space, and the [Last commit:] line carries the
    message trimmed once, its second trim having no effect. *)
Theorem clean_flag_and_last_commit (w : World) (b c m s : string) :
  sh w "git branch --show-current" = Exited 0 b ->
  sh w (count_command (Js.trim b)) = Exited 0 c ->
  sh w "git log -1 --pretty=%B" = Exited 0 m ->
  sh w "git status --porcelain" = Exited 0 s ->
  result (git_body w) = Ok tt
  /\ In (Console Log [str "Clean:"; VBool (Js.all_white s)])
       (trace (git_body w))
  /\ In (Console Log [str "Last commit:"; str (Js.trim m)])
       (trace (git_body w)).
Proof.
  intros Hb Hc Hm Hs. rewrite (git_body_run w b c m s Hb Hc Hm Hs).
  split; [reflexivity|]. unfold trace. cbn [fst].
  split; rewrite !in_app_iff; right; right; cbn; auto.
Qed.

Lemma clean_flag_and_last_commit_witness :
  sh roomy "git branch --show-current" = Exited 0 ("  feature" ++ LF)
  /\ sh roomy (count_command "feature") = Exited 0 ("      11" ++ LF)
  /\ sh roomy "git log -1 --pretty=%B" = Exited 0 ("Fix typo" ++ LF ++ LF)
  /\ sh roomy "git status --porcelain" = Exited 0 ""
  /\ In (Console Log [str "Clean:"; VBool true]) (trace (git_body roomy))
  /\ In (Console Log [str "Last commit:"; str "Fix typo"])
       (trace (git_body roomy)).
Proof.
  split; [reflexivity|]. split; [reflexivity|]. split; [reflexivity|].
  split; [reflexivity|].
  exact (proj2 (clean_flag_and_last_commit roomy ("  feature" ++ LF)
                  ("      11" ++ LF) ("Fix typo" ++ LF ++ LF) ""
                  eq_refl eq_refl eq_refl eq_refl)).
Defined.

Lemma exec_fail (w : World) (command : string) :
  (forall out, sh w command <> Exited 0 out) ->
  exec w command = ([Spawn command], Throw (ChildProcessError command)).
Proof.
  intros H. destruct (exec_cases w command) as [[out [Hout _]]|E];
    [now destruct (H out) | exact E].
Qed.

(** X17. When the branch query or the count command fails, the Git section
    body has printed nothing: it throws the error of that command, and the
    count command is not run after a failed branch query. *)
Theorem git_section_prints_nothing_before_the_count (w : World) :
  match sh w "git branch --show-current" with
  | Exited 0 b =>
      match sh w (count_command (Js.trim b)) with
      | Exited 0 _ =>
          In (Console Log [str "Branch:"; str (Js.trim b)])
            (trace (git_body w))
      | _ =>
          git_body w
          = ([Spawn "git branch --show-current";
              Spawn (count_command (Js.trim b))],
             Throw (ChildProcessError (count_command (Js.trim b))))
      end
  | _ =>
      git_body w
      = ([Spawn "git branch --show-current"],
         Throw (ChildProcessError "git branch --show-current"))
  end.
Proof.
  destruct (sh w "git branch --show-current") as [[|p|p] b| |] eqn:Hb;
    try (unfold git_body; rewrite exec_fail by (intros out; congruence);
         reflexivity).
  pose proof (exec_ok _ _ _ Hb) as Eb.
  destruct (sh w (count_command (Js.trim b))) as [[|p|p] c| |] eqn:Hc;
    try (unfold git_body; rewrite Eb; cbn -[Js.trim exec];
         erewrite (exec_fail w _)
           by (intros out Hout; discriminate (eq_trans (eq_sym Hc) Hout));
         reflexivity).
  unfold git_body. rewrite Eb. cbn -[Js.trim exec].
  erewrite (exec_ok w _ c) by exact Hc.
  cbn -[Js.trim exec Js.Number show Js.gt].
  destruct (Js.gt (Js.Number (Js.trim c)) threshold);
    destruct (exec_cases w "git log -1 --pretty=%B") as [[m [_ Em]]|Em];
    rewrite Em;
    try (destruct (exec_cases w "git status --porcelain") as [[s [_ Es]]|Es];
         rewrite Es);
    cbn -[Js.trim]; auto.
Qed.

(** ** The home directory and the macOS version *)

(** X18. [HOME_DIR] is the first of HOME, HOMEPATH and USERPROFILE that is
    set to a non-empty string; a variable set to the empty string is passed
    over like an unset one, and when none is set to a non-empty string the
    result is whatever USERPROFILE is, empty or undefined. *)
Theorem HOME_DIR_is_the_first_non_empty (w : World) :
  HOME_DIR w
  = (if truthy (env w "HOME") then env w "HOME"
     else if truthy (env w "HOMEPATH") then env w "HOMEPATH"
          else env w "USERPROFILE")
  /\ truthy (HOME_DIR w)
     = (truthy (env w "HOME") || truthy (env w "HOMEPATH")
        || truthy (env w "USERPROFILE"))%bool
  /\ (truthy (HOME_DIR w) = false -> HOME_DIR w = env w "USERPROFILE").
Proof.
  unfold HOME_DIR, or_else.
  destruct (truthy (env w "HOME")) eqn:H1; cbn;
    [rewrite H1
    |destruct (truthy (env w "HOMEPATH")) eqn:H2; cbn;
     [rewrite H2 | destruct (truthy (env w "USERPROFILE")) eqn:H3]];
    cbn; repeat split; try reflexivity; try assumption;
    try (intros H; congruence).
Qed.

(** X19. When the descriptor file is read and parsed and its first [dict]
    has [string] children, [getMacOsVersion] returns the third and the
    fourth of them separated by one space; with three children only it
    returns the third alone, and with fewer the empty string, without
    failing. *)
Theorem getMacOsVersion_joins_third_and_fourth
    (readFileSync : string -> option string)
    (parseStringPromise : string -> option Plist.document)
    (content : string) (doc : Plist.document) (p : Plist.plist_node)
    (d : Plist.dict_node) (ds : list Plist.dict_node) (l : list string) :
  readFileSync "/System/Library/CoreServices/SystemVersion.plist"
    = Some content ->
  parseStringPromise content = Some doc ->
  Plist.plist doc = Some p ->
  Plist.dict p = Some (d :: ds) ->
  Plist.strings d = Some l ->
  Plist.getMacOsVersion readFileSync parseStringPromise
  = inr match l with
        | _ :: _ :: name :: version :: _ => name ++ " " ++ version
        | [_; _; name] => name
        | _ => ""
        end.
Proof.
  intros Hread Hparse Hplist Hdict Hstrings. unfold Plist.getMacOsVersion.
  rewrite Hread, Hparse, Hplist, Hdict, Hstrings.
  destruct l as [|s0 [|s1 [|s2 [|s3 l]]]]; reflexivity.
Qed.

Lemma getMacOsVersion_joins_third_and_fourth_witness :
  Plist.getMacOsVersion (fun _ => Some "<plist/>") (fun _ => Some catalina)
  = inr "Mac OS X 10.15.6".
Proof.
  exact (getMacOsVersion_joins_third_and_fourth
           (fun _ => Some "<plist/>") (fun _ => Some catalina)
           "<plist/>" catalina _ _ _ _
           eq_refl eq_refl eq_refl eq_refl eq_refl).
Defined.

Lemma old_install_in_milliseconds_witness :
  utcOffset six_days (3 * DAY) = utcOffset six_days (clock six_days)
  /\ clock six_days - 3 * DAY < 604800000
  /\ oldInstall six_days (moment_at six_days (3 * DAY)) = false.
Proof.
  split; [reflexivity|]. split; [reflexivity|].
  exact (proj2 (old_install_in_milliseconds six_days (3 * DAY))
           eq_refl eq_refl).
Defined.

(** ** The stale-dependency warning *)

Section StaleWarning.

Variable satisfies : string -> string -> bool.
Variable w : World.

(** The body either throws, having printed no warning, or it has made all
    its observations and its trace is [node_trace]. *)
Lemma node_body_warnings :
  (exists e,
     result (node_body satisfies w) = Throw e
     /\ lines Warn (trace (node_body satisfies w)) = [])
  \/ (exists v d born npm modules,
        sh w "node -v" = Exited 0 v
        /\ sh w "echo $NVM_DIR" = Exited 0 d
        /\ birthtime w "./node_modules/moment" = Some born
        /\ sh w "npm -v" = Exited 0 npm
        /\ entries w "./node_modules" = Some modules
        /\ node_body satisfies w
           = (node_trace satisfies w (Js.trim v) (Js.trim d) (Js.trim npm)
                born modules, Ok tt)).
Proof.
  destruct (exec_cases w "node -v") as [[v [Hv Ev]]|Ev];
    [|left; eexists; unfold node_body; rewrite Ev; split; reflexivity].
  destruct (exec_cases w "echo $NVM_DIR") as [[d [Hd Ed]]|Ed];
    [|left; eexists; unfold node_body, hasNvm; rewrite Ev, Ed;
      split; reflexivity].
  destruct (birthtime w "./node_modules/moment") as [born|] eqn:Hborn;
    [|left; eexists; unfold node_body, hasNvm, stat; rewrite Ev, Ed, Hborn;
      split; reflexivity].
  destruct (exec_cases w "npm -v") as [[npm [Hnpm En]]|En];
    [|left; eexists; unfold node_body, hasNvm, stat;
      rewrite Ev, Ed, Hborn, En; cbn;
      destruct (satisfies _ _); split; reflexivity].
  destruct (entries w "./node_modules") as [modules|] eqn:Hmod.
  - right. exists v, d, born, npm, modules.
    split; [exact Hv|]. split; [exact Hd|]. split; [reflexivity|].
    split; [exact Hnpm|]. split; [reflexivity|].
    now apply node_body_run.
  - left. eexists. unfold node_body, hasNvm, stat, readdir.
    rewrite Ev, Ed, Hborn, En, Hmod. cbn.
    destruct (satisfies _ _); destruct (Js.trim d =? "")%string;
      split; reflexivity.
Qed.

Lemma warnings_of_node_trace (version dir npm : string) (born : Z)
    (modules : nat) :
  lines Warn (node_trace satisfies w version dir npm born modules)
  = if 7 <=? Z.quot (clock w - born
                     - (utcOffset w born - utcOffset w (clock w)) * 60000)
               86400000
    then stale_warnings else [].
Proof.
  unfold node_trace, lines. rewrite !filter_app.
  assert (Hv0 : filter (is_console Warn)
                  (if satisfies version "v12.18.3" then []
                   else mismatch_errors version) = [])
    by (destruct (satisfies _ _); reflexivity).
  assert (Hd0 : filter (is_console Warn)
                  (if (dir =? "")%string then nvm_errors else []) = [])
    by (destruct (_ =? _)%string; reflexivity).
  rewrite Hv0, Hd0. cbn -[Z.quot Z.leb Z.geb].
  unfold diff_days, moment_at, DAY. cbn [valueOf offset].
  rewrite Z.geb_leb. now destruct (7 <=? _).
Qed.

(** C3, as amended. The two warning lines recommending a reinstall are
    printed exactly when the Node section body runs to its end (its three
    commands, the [stat] and the directory listing all succeed) and the
    whole days elapsed between the creation time of [./node_modules/moment]
    and the current time are at least 7, the days being the milliseconds
    elapsed, less the change of the local UTC offset, divided by 86400000
    and truncated. *)
Theorem stale_warning_after_a_complete_run (born : Z) :
  birthtime w "./node_modules/moment" = Some born ->
  lines Warn (trace (node_body satisfies w))
  = (if succeeds (node_body satisfies w)
        && (7 <=? Z.quot (clock w - born
                          - (utcOffset w born - utcOffset w (clock w)) * 60000)
                    86400000)
     then stale_warnings else [])
  /\ (succeeds (node_body satisfies w) = true
      <-> exists v d npm modules,
            sh w "node -v" = Exited 0 v
            /\ sh w "echo $NVM_DIR" = Exited 0 d
            /\ sh w "npm -v" = Exited 0 npm
            /\ entries w "./node_modules" = Some modules).
Proof.
  intros Hborn.
  destruct node_body_warnings
    as [(e & He & Hnone)
       |(v & d & born' & npm & modules & Hv & Hd & Hborn' & Hnpm & Hmod & Hrun)].
  - unfold succeeds. rewrite He. cbn. split; [exact Hnone|].
    split; [discriminate|].
    intros (v & d & npm & modules & Hv & Hd & Hnpm & Hmod).
    rewrite (node_body_run satisfies w v d npm born modules
               Hv Hd Hborn Hnpm Hmod) in He.
    discriminate He.
  - rewrite Hborn in Hborn'. injection Hborn' as <-.
    unfold succeeds. rewrite Hrun. cbn [trace result fst snd andb]. split.
    + apply warnings_of_node_trace.
    + split; [|reflexivity]. intros _. now exists v, d, npm, modules.
Qed.

End StaleWarning.

Lemma stale_warning_after_a_complete_run_witness :
  birthtime week_old "./node_modules/moment" = Some 259200000
  /\ clock week_old - 259200000 = 7 * 86400000
  /\ succeeds (node_body same_version week_old) = true
  /\ lines Warn (trace (node_body same_version week_old)) = stale_warnings.
Proof.
  split; [reflexivity|]. split; [reflexivity|]. split; [reflexivity|].
  exact (proj1 (stale_warning_after_a_complete_run same_version week_old
                  259200000 eq_refl)).
Defined.

(** The other side of the boundary: six days after the install there is no
    warning; and seven days less the hour by which the clock went forward
    count as seven. *)
Example no_stale_warning_after_six_days :
  clock six_days - 259200000 = 6 * 86400000
  /\ result (node_body same_version six_days) = Ok tt
  /\ lines Warn (trace (node_body same_version six_days)) = [].
Proof.
  repeat split.
Qed.

Example stale_warning_across_a_clock_change :
  clock spring_forward - 259200000 = 7 * 86400000 - 3600000
  /\ result (node_body same_version spring_forward) = Ok tt
  /\ lines Warn (trace (node_body same_version spring_forward))
     = stale_warnings.
Proof.
  repeat split.
Qed.

(** C3, as stated, fails on a machine without npm whose dependencies were
    installed thirty days ago: the days elapsed are at least 7, but the body
    throws at [npm -v], before the warning, and no warning is printed. *)
Lemma stale_warning_counterexample :
  birthtime npm_missing "./node_modules/moment" = Some 86400000
  /\ Z.quot (clock npm_missing - 86400000) 86400000 = 30
  /\ node_body same_version npm_missing
     = ([ Spawn "node -v"; Spawn "echo $NVM_DIR";
          Stat "./node_modules/moment";
          Console Log [str "Version:"; str "v12.18.3"];
          Spawn "npm -v" ],
        Throw (ChildProcessError "npm -v"))
  /\ ~ (lines Warn (trace (node_body same_version npm_missing))
        = stale_warnings
        <-> 7 <= Z.quot (clock npm_missing - 86400000) 86400000).
Proof.
  split; [reflexivity|]. split; [reflexivity|]. split; [reflexivity|].
  intros [_ H].
  assert (Hdays : 7 <= Z.quot (clock npm_missing - 86400000) 86400000)
    by (vm_compute; discriminate).
  specialize (H Hdays). discriminate H.
Qed.
